(** * uwv_kalman_filters: the pose UKF of an underwater vehicle

    A shallow embedding of [PoseUKF.cpp] / [PoseUKF.hpp]: the process model,
    the measurement models, the innovation gates, the prediction step and the
    [integrateMeasurement] overloads, followed by the properties the
    specification states about them.

    Conventions of the embedding.
    - A C++ [double] is an exact rational ([Q]); equalities between computed
      values are stated with [Qeq] ([==]), componentwise on vectors.  Rounding,
      NaN and infinities are outside the model (a division by zero, an
      infinity or a NaN in C++, is zero in [Q]); one scenario is evaluated
      in binary64 as well.  A property that would hold at a zero divisor
      only through that convention takes the divisor being nonzero as a
      hypothesis.
    - Fixed-size Eigen vectors and the MTK [vect]/[matrix] manifolds are
      records; covariance matrices are coefficient functions
      [row -> column -> Q]; dynamically sized Eigen vectors and [std::vector]
      are lists, with checked indexing: the source indexes with [operator[]],
      whose behaviour outside the container is not defined, and the model
      stops at such an access and reports its index and the size, so that
      [Stop (OutOfBounds i n)] says that the code makes that access.
    - What lives in other packages (the SO(3) manifold of MTK, the geographic
      projection, libm, the hydrodynamic model, the SVR regression, the
      numerical kernel of the ukfom engine) is a field of the class
      [Collaborators]. *)

From Stdlib Require Import QArith Qabs List String Bool Arith NArith Lia.
From Stdlib Require Import PrimFloat.
From Stdlib Require Import Lqa.
Import ListNotations.
Open Scope Q_scope.

(** ** Scalars *)

(** [a > b] on doubles. *)
Definition Qgt_bool (a b : Q) : bool := negb (Qle_bool a b).

(** [pow(x, 2.)] *)
Definition pow2 (x : Q) : Q := x * x.

(** ** Fixed-size vectors and matrices *)

Record Vector2d := mkVector2d { x2 : Q; y2 : Q }.
Record Vector3d := mkVector3d { x3 : Q; y3 : Q; z3 : Q }.

(** A 3x3 matrix manifold ([MTK::matrix<3,3>]); [cRC] is row R, column C.
    Its [vectorized_type] is the same nine coefficients seen through
    [Eigen::Map] over [data()], so both are this record. *)
Record Matrix3d := mkMatrix3d {
  c00 : Q; c10 : Q; c20 : Q;
  c01 : Q; c11 : Q; c21 : Q;
  c02 : Q; c12 : Q; c22 : Q }.

Record Vector6d := mkVector6d {
  e0 : Q; e1 : Q; e2 : Q; e3 : Q; e4 : Q; e5 : Q }.

(** The capability set shared by the Euclidean manifolds: a dimension,
    coefficient access and coefficientwise operations. *)
Class Vect (T : Type) := {
  dim : nat;
  coeff : T -> nat -> Q;
  vmap : (Q -> Q) -> T -> T;
  vzip : (Q -> Q -> Q) -> T -> T -> T;
  coeff_vmap : forall f a i, (i < dim)%nat -> coeff (vmap f a) i = f (coeff a i);
  coeff_vzip : forall f a b i, (i < dim)%nat ->
      coeff (vzip f a b) i = f (coeff a i) (coeff b i)
}.

Ltac by_index i H :=
  simpl in H; repeat (destruct i as [|i]; [reflexivity | try lia]).

(** Coordinate by coordinate, for [=v=]. *)
Ltac coordinates :=
  let i := fresh "i" in
  let Hi := fresh "Hi" in
  intros i Hi; simpl in Hi;
  repeat (destruct i as [|i]; [simpl; try ring | try lia]).

(** The same on closed vectors, by evaluation. *)
Ltac evaluate_coordinates :=
  let i := fresh "i" in
  let Hi := fresh "Hi" in
  intros i Hi; simpl in Hi;
  repeat (destruct i as [|i]; [vm_compute; reflexivity | try lia]).

#[export, refine] Instance Vect_scalar : Vect Q := {
  dim := 1;
  coeff a _ := a;
  vmap f a := f a;
  vzip f a b := f a b }.
Proof. all: reflexivity. Defined.

#[export, refine] Instance Vect_Vector2d : Vect Vector2d := {
  dim := 2;
  coeff a i := match i with O => x2 a | _ => y2 a end;
  vmap f a := mkVector2d (f (x2 a)) (f (y2 a));
  vzip f a b := mkVector2d (f (x2 a) (x2 b)) (f (y2 a) (y2 b)) }.
Proof.
  - intros f a i H. by_index i H.
  - intros f a b i H. by_index i H.
Defined.

#[export, refine] Instance Vect_Vector3d : Vect Vector3d := {
  dim := 3;
  coeff a i := match i with O => x3 a | 1%nat => y3 a | _ => z3 a end;
  vmap f a := mkVector3d (f (x3 a)) (f (y3 a)) (f (z3 a));
  vzip f a b := mkVector3d (f (x3 a) (x3 b)) (f (y3 a) (y3 b)) (f (z3 a) (z3 b)) }.
Proof.
  - intros f a i H. by_index i H.
  - intros f a b i H. by_index i H.
Defined.

(** Row [r], column [c] of a 3x3 matrix. *)
Definition m3 (a : Matrix3d) (r c : nat) : Q :=
  match r, c with
  | 0%nat, 0%nat => c00 a | 1%nat, 0%nat => c10 a | _, 0%nat => c20 a
  | 0%nat, 1%nat => c01 a | 1%nat, 1%nat => c11 a | _, 1%nat => c21 a
  | 0%nat, _ => c02 a | 1%nat, _ => c12 a | _, _ => c22 a
  end.
Arguments m3 a (r c)%_nat.

(** Column-major storage order, as [data()] exposes it. *)
#[export, refine] Instance Vect_Matrix3d : Vect Matrix3d := {
  dim := 9;
  coeff a i := m3 a (i mod 3) (i / 3);
  vmap f a := mkMatrix3d (f (c00 a)) (f (c10 a)) (f (c20 a))
                         (f (c01 a)) (f (c11 a)) (f (c21 a))
                         (f (c02 a)) (f (c12 a)) (f (c22 a));
  vzip f a b := mkMatrix3d (f (c00 a) (c00 b)) (f (c10 a) (c10 b)) (f (c20 a) (c20 b))
                           (f (c01 a) (c01 b)) (f (c11 a) (c11 b)) (f (c21 a) (c21 b))
                           (f (c02 a) (c02 b)) (f (c12 a) (c12 b)) (f (c22 a) (c22 b)) }.
Proof.
  - intros f a i H. by_index i H.
  - intros f a b i H. by_index i H.
Defined.

Definition vadd {T} `{Vect T} (a b : T) : T := vzip Qplus a b.
Definition vsub {T} `{Vect T} (a b : T) : T := vzip Qminus a b.
(** [k * a] *)
Definition vscale {T} `{Vect T} (k : Q) (a : T) : T := vmap (Qmult k) a.

(** Coefficientwise equality of computed values. *)
Definition veq {T} `{Vect T} (a b : T) : Prop :=
  forall i, (i < dim)%nat -> coeff a i == coeff b i.

Infix "=v=" := veq (at level 70, no associativity).

(** Modelled from the spec: [boxplus(vec, scale)] of the Euclidean manifolds
    [MTK::vect] and [MTK::matrix], which MTK defines and the filter only
    calls.  Section 4.1 has boxplus on Euclidean fields as [+]; the increment
    of [x.boxplus(vec, scale)] is [scale * vec]. *)
Definition boxplus {T} `{Vect T} (x vec : T) (scale : Q) : T :=
  vadd x (vscale scale vec).

Definition Vector3d_Zero : Vector3d := mkVector3d 0 0 0.

Definition cross (a b : Vector3d) : Vector3d :=
  mkVector3d (y3 a * z3 b - z3 a * y3 b)
             (z3 a * x3 b - x3 a * z3 b)
             (x3 a * y3 b - y3 a * x3 b).

Definition squaredNorm (a : Vector3d) : Q :=
  x3 a * x3 a + y3 a * y3 a + z3 a * z3 a.

(** [v.head<2>()] *)
Definition head2 (a : Vector3d) : Vector2d := mkVector2d (x3 a) (y3 a).

(** ** Dense matrices

    A covariance or parameter matrix is its coefficient function; the sizes
    are fixed by the C++ types. *)
Definition Matrix := nat -> nat -> Q.

Definition in_block (r c nr nc i j : nat) : bool :=
  ((r <=? i) && (i <? r + nr) && (c <=? j) && (j <? c + nc))%nat.

(** [A.block(r,c,nr,nc)] read as an [nr] x [nc] matrix of its own; a
    coefficient function is zero outside the dimensions of its matrix. *)
Definition block (A : Matrix) (r c nr nc : nat) : Matrix :=
  fun i j => if ((i <? nr) && (j <? nc))%nat then A (r + i)%nat (c + j)%nat else 0.

(** [A.block(r,c,nr,nc) = B] *)
Definition set_block (A : Matrix) (r c nr nc : nat) (B : Matrix) : Matrix :=
  fun i j => if in_block r c nr nc i j then B (i - r)%nat (j - c)%nat else A i j.

Definition Matrix_Zero : Matrix := fun _ _ => 0.
Definition Matrix_Identity : Matrix := fun i j => if (i =? j)%nat then 1 else 0.

Definition m3_transpose (a : Matrix3d) : Matrix3d :=
  mkMatrix3d (c00 a) (c01 a) (c02 a)
             (c10 a) (c11 a) (c12 a)
             (c20 a) (c21 a) (c22 a).

(** 3x3 product, each coefficient accumulated left to right. *)
Definition m3_mul (a b : Matrix3d) : Matrix3d :=
  let e (r c : nat) :=
    m3 a r 0 * m3 b 0 c + m3 a r 1 * m3 b 1 c + m3 a r 2 * m3 b 2 c in
  mkMatrix3d (e 0 0)%nat (e 1 0)%nat (e 2 0)%nat
             (e 0 1)%nat (e 1 1)%nat (e 2 1)%nat
             (e 0 2)%nat (e 1 2)%nat (e 2 2)%nat.

Definition m3_mulv (a : Matrix3d) (v : Vector3d) : Vector3d :=
  mkVector3d (c00 a * x3 v + c01 a * y3 v + c02 a * z3 v)
             (c10 a * x3 v + c11 a * y3 v + c12 a * z3 v)
             (c20 a * x3 v + c21 a * y3 v + c22 a * z3 v).

(** The 3x3 matrix stored in the top-left corner of a coefficient function. *)
Definition m3_of (A : Matrix) : Matrix3d :=
  mkMatrix3d (A 0 0)%nat (A 1 0)%nat (A 2 0)%nat
             (A 0 1)%nat (A 1 1)%nat (A 2 1)%nat
             (A 0 2)%nat (A 1 2)%nat (A 2 2)%nat.

Definition m3_Identity : Matrix3d := mkMatrix3d 1 0 0 0 1 0 0 0 1.

(** ** The state manifold *)

(** Modelled from the spec: the fields of [PoseState], which
    [MTK_BUILD_MANIFOLD] declares in [PoseState.hpp], in the order of the
    table of section 3.1.  [PoseUKF.cpp] uses every one of them, with the
    sizes below: 3-vectors for the first six, [gravity(0)] and
    [water_density(0)], 3x3 blocks of inertia and of the two dampings, 2x2
    covariance blocks for the water velocities. *)
Inductive Field :=
| f_position | f_orientation | f_velocity | f_acceleration | f_bias_gyro
| f_bias_acc | f_gravity | f_inertia | f_lin_damping | f_quad_damping
| f_water_velocity | f_water_velocity_below | f_bias_adcp | f_water_density.

Definition fields : list Field :=
  [f_position; f_orientation; f_velocity; f_acceleration; f_bias_gyro;
   f_bias_acc; f_gravity; f_inertia; f_lin_damping; f_quad_damping;
   f_water_velocity; f_water_velocity_below; f_bias_adcp; f_water_density].

(** Modelled from the spec: the degrees of freedom of each field (section
    3.1), which are those of the manifold types the source uses them at. *)
Definition field_DOF (f : Field) : nat :=
  match f with
  | f_orientation => 3                       (* SO(3) *)
  | f_position | f_velocity | f_acceleration
  | f_bias_gyro | f_bias_acc => dim (T := Vector3d)
  | f_gravity | f_water_density => dim (T := Q)
  | f_inertia | f_lin_damping | f_quad_damping => dim (T := Matrix3d)
  | f_water_velocity | f_water_velocity_below | f_bias_adcp =>
      dim (T := Vector2d)
  end%nat.

Definition Field_eqb (f g : Field) : bool :=
  match f, g with
  | f_position, f_position | f_orientation, f_orientation
  | f_velocity, f_velocity | f_acceleration, f_acceleration
  | f_bias_gyro, f_bias_gyro | f_bias_acc, f_bias_acc
  | f_gravity, f_gravity | f_inertia, f_inertia
  | f_lin_damping, f_lin_damping | f_quad_damping, f_quad_damping
  | f_water_velocity, f_water_velocity
  | f_water_velocity_below, f_water_velocity_below
  | f_bias_adcp, f_bias_adcp | f_water_density, f_water_density => true
  | _, _ => false
  end.

(** [MTK_BUILD_MANIFOLD] numbers the tangent coordinates field after field. *)
Fixpoint offset_in (fs : list Field) (f : Field) : nat :=
  match fs with
  | [] => 0%nat
  | g :: fs' => if Field_eqb g f then 0%nat else (field_DOF g + offset_in fs' f)%nat
  end.

Definition field_IDX (f : Field) : nat := offset_in fields f.

(** [State::DOF], the sum over the fields: 53.  (The total of 36 that
    section 3.1 states next to its table is not the sum of the table's rows,
    and the source's own uses of the fields need at least these sizes.) *)
Definition State_DOF : nat := fold_right (fun f n => (field_DOF f + n)%nat) 0%nat fields.

(** [MTK::subblock(cov, &State::f)] *)
Definition subblock (A : Matrix) (f : Field) : Matrix :=
  block A (field_IDX f) (field_IDX f) (field_DOF f) (field_DOF f).

(** [MTK::subblock(cov, &State::f) = B] *)
Definition set_subblock (A : Matrix) (f : Field) (B : Matrix) : Matrix :=
  set_block A (field_IDX f) (field_IDX f) (field_DOF f) (field_DOF f) B.

(** ** Measurements ([MEASUREMENT(name, dim)]): a mean and a covariance *)
Record Measurement (Mu : Type) := mkMeasurement { m_mu : Mu; m_cov : Matrix }.
Arguments mkMeasurement {Mu}.
Arguments m_mu {Mu}.
Arguments m_cov {Mu}.

(** ** Configuration *)
Record PoseUKFParameter := mkPoseUKFParameter {
  imu_in_body : Vector3d;
  gyro_bias_offset : Vector3d;
  gyro_bias_tau : Q;
  acc_bias_offset : Vector3d;
  acc_bias_tau : Q;
  inertia_tau : Q;
  lin_damping_tau : Q;
  quad_damping_tau : Q;
  water_velocity_tau : Q;
  water_velocity_limits : Q;
  water_velocity_scale : Q;
  adcp_bias_tau : Q;
  atmospheric_pressure : Q;
  water_density_tau : Q }.

Record LocationConfiguration := mkLocationConfiguration {
  latitude : Q; longitude : Q }.

Record CameraConfiguration := mkCameraConfiguration {
  fx : Q; fy : Q; cx : Q; cy : Q }.

(** Modelled from the spec: [uwv_dynamic_model::UWVParameters] as section 6.1
    has it, an inertia matrix and two damping matrices, each 6x6; the source
    writes [inertia_matrix], [damping_matrices[0]] and [damping_matrices[1]].
    The state of the shared [DynamicModel] object is the parameter set it
    holds. *)
Record UWVParameters := mkUWVParameters {
  inertia_matrix : Matrix;
  damping_matrices_0 : Matrix;
  damping_matrices_1 : Matrix }.

(** Modelled from the spec: [checkMeasurment], which the filter inherits from
    its base class.  It validates a measurement against NaN and infinite
    entries (section 7, BadMeasurement) and [integrateMeasurement] never
    throws; a rational mean and covariance give it nothing to report. *)
Definition checkMeasurment {Mu : Type} (mu : Mu) (cov : Matrix) : unit := tt.

(** ** Results of code that indexes dynamically sized containers *)
Inductive error :=
| OutOfBounds (index size : nat)   (* operator[] outside [0, size) *)
| OutOfFuel.                       (* a loop that did not end within its bound *)

Inductive outcome (A : Type) :=
| Ok (a : A)
| Stop (e : error).
Arguments Ok {A}.
Arguments Stop {A}.

(** Checked [operator[]] for writing, on [Eigen::VectorXd]. *)
Definition VectorXd := list Q.

Fixpoint list_set {A} (l : list A) (i : nat) (v : A) : list A :=
  match l, i with
  | [], _ => []
  | _ :: l', O => v :: l'
  | a :: l', S i' => a :: list_set l' i' v
  end.

Definition VectorXd_write (X : VectorXd) (i : nat) (v : Q) : outcome VectorXd :=
  if (i <? List.length X)%nat then Ok (list_set X i v) else Stop (OutOfBounds i (List.length X)).

(** Checked [operator[]] for reading, on [std::vector]. *)
Definition vector_at {A} (l : list A) (i : nat) : outcome A :=
  match nth_error l i with
  | Some a => Ok a
  | None => Stop (OutOfBounds i (List.length l))
  end.

(** Computations that read and write the shared hydrodynamic model and may
    stop at an out-of-bounds access; the model is kept as it was at that
    point. *)
Definition Eff (A : Type) : Type := UWVParameters -> outcome A * UWVParameters.

Definition ret {A} (a : A) : Eff A := fun dm => (Ok a, dm).

Definition bind {A B} (m : Eff A) (k : A -> Eff B) : Eff B :=
  fun dm => match m dm with
            | (Ok a, dm') => k a dm'
            | (Stop e, dm') => (Stop e, dm')
            end.

Definition lift_outcome {A} (o : outcome A) : Eff A := fun dm => (o, dm).

Notation "x <- m ;; k" := (bind m (fun x => k))
  (at level 61, m at next level, right associativity).

Fixpoint mapM {A B} (h : A -> Eff B) (l : list A) : Eff (list B) :=
  match l with
  | [] => ret []
  | a :: l' => b <- h a ;; bs <- mapM h l' ;; ret (b :: bs)
  end.

(** ** The ukfom engine's state: mean and covariance *)
Record ukfom_ukf (St : Type) := mkUkf { mu : St; sigma : Matrix }.
Arguments mkUkf {St}.
Arguments mu {St}.
Arguments sigma {St}.

(** ** Innovation gates *)

Definition d2p99 (mahalanobis2 : Q) : bool :=
  if Qgt_bool mahalanobis2 9.21 then false else true.

Definition d2p95 (mahalanobis2 : Q) : bool :=
  if Qgt_bool mahalanobis2 5.991 then false else true.

(** Modelled from the spec: [ukfom::accept_any_mahalanobis_distance], the
    gate of section 4.6 that accepts unconditionally. *)
Definition accept_any_mahalanobis_distance (mahalanobis2 : Q) : bool := true.

(** [Eigen::Affine3d]: a linear part and a translation. *)
Record Affine3d := mkAffine3d { linear : Matrix3d; translation : Vector3d }.

Definition affine_mul (a b : Affine3d) : Affine3d :=
  mkAffine3d (m3_mul (linear a) (linear b))
             (vadd (m3_mulv (linear a) (translation b)) (translation a)).

Definition affine_apply (a : Affine3d) (v : Vector3d) : Vector3d :=
  vadd (m3_mulv (linear a) v) (translation a).

(** The unsigned loop counter of the visual update is 32 bits wide. *)
Definition UINT_MODULUS : N := 4294967296.

(** ** Collaborators from other packages

    What the filter uses and does not define: the SO(3) and S2 manifolds of
    MTK, two Eigen routines, libm, the earth model and the geographic
    projection, the hydrodynamic model, the SVR regression and the numerical
    kernel of the ukfom engine. *)
Class Collaborators := {
  (** [MTK::SO3<double>], a unit quaternion: [q * v], [q.inverse()],
      [q.matrix()], [q.boxplus(vec, scale)] and the constructor from a
      rotation matrix. *)
  SO3 : Type;
  so3_rotate : SO3 -> Vector3d -> Vector3d;
  so3_inverse : SO3 -> SO3;
  so3_matrix : SO3 -> Matrix3d;
  so3_boxplus : SO3 -> Vector3d -> Q -> SO3;
  SO3_of_matrix : Matrix3d -> SO3;
  (** [MTK::S2<double>], built from a 3-vector. *)
  S2 : Type;
  S2_of_vector : Vector3d -> S2;
  (** Eigen: the inverse of a 3x3 matrix and [Affine3d::rotation()]. *)
  m3_inverse : Matrix3d -> Matrix3d;
  affine_rotation : Affine3d -> Matrix3d;
  (** [<math.h>] *)
  cos : Q -> Q;
  sin : Q -> Q;
  (** [pose_estimation::EARTHW] and [pose_estimation::GeographicProjection],
      a projection being determined by the origin it was built with. *)
  EARTHW : Q;
  navToWorld : LocationConfiguration -> Q -> Q -> Q * Q;
  worldToNav : LocationConfiguration -> Q -> Q -> Q * Q;
  (** [uwv_dynamic_model::DynamicModel::calcEfforts], reading the parameters
      the model currently holds. *)
  calcEfforts : UWVParameters -> Vector6d -> Vector6d -> SO3 -> Vector6d;
  (** [SVRThreeDOFModel::predict_efforts(X, ten feature names)] *)
  predict_efforts :
    VectorXd -> string -> string -> string -> string -> string ->
    string -> string -> string -> string -> string -> VectorXd;
  (** The numerical kernel of [ukfom::ukf]: the off-centre sigma points of
      [(mu, sigma)], the squared Mahalanobis distance of the innovation and
      the Kalman posterior computed from the transformed sigma points, and
      the whole of [predict]. *)
  sigma_spread : forall St : Type, ukfom_ukf St -> list St;
  innovation_mahalanobis2 :
    forall St M : Type, ukfom_ukf St -> list St -> list M -> M -> Matrix -> Q;
  kalman_posterior :
    forall St M : Type,
      ukfom_ukf St -> list St -> list M -> M -> Matrix -> ukfom_ukf St;
  ukf_predict :
    forall St : Type, (St -> St) -> Matrix -> ukfom_ukf St -> ukfom_ukf St
}.

Section Filter.

Context {C : Collaborators}.

(** *** The composite state *)
Record PoseState := mkPoseState {
  position : Vector3d;
  orientation : SO3;
  velocity : Vector3d;
  acceleration : Vector3d;
  bias_gyro : Vector3d;
  bias_acc : Vector3d;
  gravity : Q;
  inertia : Matrix3d;
  lin_damping : Matrix3d;
  quad_damping : Matrix3d;
  water_velocity : Vector2d;
  water_velocity_below : Vector2d;
  bias_adcp : Vector2d;
  water_density : Q }.

(** *** Process model *)
Definition earth_rotation_at (latitude : Q) : Vector3d :=
  mkVector3d (EARTHW * cos latitude) 0 (EARTHW * sin latitude).

Definition processModel (state : PoseState) (rotation_rate : Vector3d)
    (projection : LocationConfiguration)
    (inertia_offset lin_damping_offset quad_damping_offset : Matrix3d)
    (water_density_offset : Q)
    (filter_parameter : PoseUKFParameter) (delta_time : Q) : PoseState :=
  (* apply angular velocity *)
  let (latitude, longitude) :=
    navToWorld projection (x3 (position state)) (y3 (position state)) in
  let earth_rotation := earth_rotation_at latitude in
  let angular_velocity :=
    vsub (so3_rotate (orientation state) (vsub rotation_rate (bias_gyro state)))
         earth_rotation in
  let gyro_bias_delta :=
    vscale (-1 / gyro_bias_tau filter_parameter)
           (vsub (bias_gyro state) (gyro_bias_offset filter_parameter)) in
  let acc_bias_delta :=
    vscale (-1 / acc_bias_tau filter_parameter)
           (vsub (bias_acc state) (acc_bias_offset filter_parameter)) in
  let inertia_delta :=
    vscale (-1 / inertia_tau filter_parameter)
           (vsub (inertia state) inertia_offset) in
  let lin_damping_delta :=
    vscale (-1 / lin_damping_tau filter_parameter)
           (vsub (lin_damping state) lin_damping_offset) in
  let quad_damping_delta :=
    vscale (-1 / quad_damping_tau filter_parameter)
           (vsub (quad_damping state) quad_damping_offset) in
  let water_velocity_delta :=
    vscale (-1 / water_velocity_tau filter_parameter) (water_velocity state) in
  let water_velocity_below_delta :=
    vscale (-1 / water_velocity_tau filter_parameter) (water_velocity_below state) in
  let bias_adcp_delta :=
    vscale (-1 / adcp_bias_tau filter_parameter) (bias_adcp state) in
  let water_density_delta :=
    (-1 / water_density_tau filter_parameter)
    * (water_density state - water_density_offset) in
  (* new_state(state), then one boxplus per field *)
  {| position := boxplus (position state) (velocity state) delta_time;
     orientation := so3_boxplus (orientation state) angular_velocity delta_time;
     velocity := boxplus (velocity state) (acceleration state) delta_time;
     acceleration := acceleration state;
     bias_gyro := boxplus (bias_gyro state) gyro_bias_delta delta_time;
     bias_acc := boxplus (bias_acc state) acc_bias_delta delta_time;
     gravity := gravity state;
     inertia := boxplus (inertia state) inertia_delta delta_time;
     lin_damping := boxplus (lin_damping state) lin_damping_delta delta_time;
     quad_damping := boxplus (quad_damping state) quad_damping_delta delta_time;
     water_velocity :=
       boxplus (water_velocity state) water_velocity_delta delta_time;
     water_velocity_below :=
       boxplus (water_velocity_below state) water_velocity_below_delta delta_time;
     bias_adcp := boxplus (bias_adcp state) bias_adcp_delta delta_time;
     water_density := boxplus (water_density state) water_density_delta delta_time |}.

(** *** Measurement models *)

Definition measurementXYPosition (state : PoseState) : Vector2d :=
  mkVector2d (x3 (position state)) (y3 (position state)).

Definition measurementZPosition (state : PoseState) : Q :=
  z3 (position state).

Definition measurementPressureSensor (state : PoseState)
    (pressure_sensor_in_imu : Vector3d) (atmospheric_pressure : Q) : Q :=
  let pressure_sensor_in_nav :=
    vadd (position state) (so3_rotate (orientation state) pressure_sensor_in_imu) in
  atmospheric_pressure
  - z3 pressure_sensor_in_nav * gravity state * water_density state.

Definition measurementVelocity (state : PoseState) : Vector3d :=
  so3_rotate (so3_inverse (orientation state)) (velocity state).

Definition measurementAcceleration (state : PoseState) : Vector3d :=
  vadd (so3_rotate (so3_inverse (orientation state))
                   (vadd (acceleration state) (mkVector3d 0 0 (gravity state))))
       (bias_acc state).

Definition measurementWaterCurrents (state : PoseState) (cell_weighting : Q)
    : Vector2d :=
  let water_velocity_below :=
    mkVector3d (x2 (water_velocity_below state)) (y2 (water_velocity_below state)) 0 in
  let water_velocity_below :=
    so3_rotate (so3_inverse (orientation state))
               (vsub (velocity state) water_velocity_below) in
  let water_velocity :=
    mkVector3d (x2 (water_velocity state)) (y2 (water_velocity state)) 0 in
  let water_velocity :=
    so3_rotate (so3_inverse (orientation state))
               (vsub (velocity state) water_velocity) in
  mkVector2d
    (cell_weighting * x3 water_velocity_below
     + (1 - cell_weighting) * x3 water_velocity + x2 (bias_adcp state))
    (cell_weighting * y3 water_velocity_below
     + (1 - cell_weighting) * y3 water_velocity + y2 (bias_adcp state)).

(** [dynamic_model->getUWVParameters()], [->setUWVParameters(params)] and
    [->calcEfforts(...)] on the shared model. *)
Definition getUWVParameters : Eff UWVParameters := fun dm => (Ok dm, dm).
Definition setUWVParameters (params : UWVParameters) : Eff unit :=
  fun _ => (Ok tt, params).
Definition DynamicModel_calcEfforts (acceleration_6d velocity_6d : Vector6d)
    (q : SO3) : Eff Vector6d :=
  fun dm => (Ok (calcEfforts dm acceleration_6d velocity_6d q), dm).

(** The four block assignments that copy a 3x3 state block into rows and
    columns 0, 1 and 5 of a 6x6 parameter matrix. *)
Definition inject_blocks (P : Matrix) (s : Matrix3d) : Matrix :=
  let P := set_block P 0 0 2 2 (block (m3 s) 0 0 2 2) in
  let P := set_block P 0 5 2 1 (block (m3 s) 0 2 2 1) in
  let P := set_block P 5 0 1 2 (block (m3 s) 2 0 1 2) in
  set_block P 5 5 1 1 (block (m3 s) 2 2 1 1).

(** The parameter set handed to [setUWVParameters]. *)
Definition injected_parameters (params : UWVParameters) (state : PoseState)
    : UWVParameters :=
  {| inertia_matrix := inject_blocks (inertia_matrix params) (inertia state);
     damping_matrices_0 :=
       inject_blocks (damping_matrices_0 params) (lin_damping state);
     damping_matrices_1 :=
       inject_blocks (damping_matrices_1 params) (quad_damping state) |}.

(** [base::VectorXd X;] *)
Definition X_default : VectorXd := [].

(** [X[0] = velocity_6d[0]; ... X[5] = acceleration_6d[5];] *)
Definition X_writes (velocity_6d acceleration_6d : Vector6d) : list (nat * Q) :=
  [(0%nat, e0 velocity_6d); (1%nat, e1 velocity_6d); (2%nat, e5 velocity_6d);
   (3%nat, e0 acceleration_6d); (4%nat, e1 acceleration_6d);
   (5%nat, e5 acceleration_6d)].

Fixpoint write_all (X : VectorXd) (ws : list (nat * Q)) : outcome VectorXd :=
  match ws with
  | [] => Ok X
  | (i, v) :: ws' =>
      match VectorXd_write X i v with
      | Ok X' => write_all X' ws'
      | Stop e => Stop e
      end
  end.

Definition regression_input (velocity_6d acceleration_6d : Vector6d)
    : outcome VectorXd :=
  write_all X_default (X_writes velocity_6d acceleration_6d).

(** The ten assignments [f_names[i] = "..."], in source order. *)
Definition f_names_assignments : list (nat * string) :=
  [(0%nat, "scaler_params"%string);
   (1%nat, "params_x"%string);
   (2%nat, "params_y"%string);
   (3%nat, "params_yaw"%string);
   (4%nat, "fitout_X"%string);
   (4%nat, "fitout_y"%string);
   (6%nat, "fitout_yaw"%string);
   (7%nat, "s_x"%string);
   (8%nat, "s_y"%string);
   (9%nat, "s_yaw"%string)].

(** [std::string f_names[10];], ten empty strings, after the assignments. *)
Definition f_names : list string :=
  fold_left (fun names a => list_set names (fst a) (snd a))
            f_names_assignments (repeat EmptyString 10).

Definition f_names_at (i : nat) : string := nth i f_names EmptyString.

(** [svr_3ofM.predict_efforts(X, f_names[0], ..., f_names[9])] *)
Definition efforts_sklearn_of (X : VectorXd) : VectorXd :=
  predict_efforts X (f_names_at 0) (f_names_at 1) (f_names_at 2) (f_names_at 3)
                  (f_names_at 4) (f_names_at 5) (f_names_at 6) (f_names_at 7)
                  (f_names_at 8) (f_names_at 9).

Definition measurementEfforts (state : PoseState)
    (imu_in_body rotation_rate_body : Vector3d) : Eff Vector6d :=
  (* set damping parameters *)
  params <- getUWVParameters ;;
  _ <- setUWVParameters (injected_parameters params state) ;;
  (* assume center of rotation to be the body frame *)
  let water_velocity :=
    mkVector3d (x2 (water_velocity state)) (y2 (water_velocity state)) 0 in
  let velocity_body :=
    vsub (so3_rotate (so3_inverse (orientation state)) (velocity state))
         (cross rotation_rate_body imu_in_body) in
  let velocity_body :=
    vsub velocity_body
         (so3_rotate (so3_inverse (orientation state)) water_velocity) in
  let velocity_6d :=
    mkVector6d (x3 velocity_body) (y3 velocity_body) (z3 velocity_body)
               (x3 rotation_rate_body) (y3 rotation_rate_body)
               (z3 rotation_rate_body) in
  let acceleration_body :=
    vsub (so3_rotate (so3_inverse (orientation state)) (acceleration state))
         (cross rotation_rate_body (cross rotation_rate_body imu_in_body)) in
  (* assume the angular acceleration to be zero *)
  let acceleration_6d :=
    mkVector6d (x3 acceleration_body) (y3 acceleration_body)
               (z3 acceleration_body) 0 0 0 in
  X <- lift_outcome (regression_input velocity_6d acceleration_6d) ;;
  let efforts_sklearn := efforts_sklearn_of X in
  efforts <- DynamicModel_calcEfforts acceleration_6d velocity_6d
                                      (orientation state) ;;
  s0 <- lift_outcome (vector_at efforts_sklearn 0) ;;
  s1 <- lift_outcome (vector_at efforts_sklearn 1) ;;
  s2 <- lift_outcome (vector_at efforts_sklearn 2) ;;
  ret (mkVector6d s0 s1 (e2 efforts) (e3 efforts) (e4 efforts) s2).

Definition constrainVelocity (state : PoseState)
    (imu_in_body rotation_rate_body water_velocity : Vector3d)
    (orientation : SO3) (acceleration_body : Vector3d) : Eff Vector6d :=
  let velocity_body :=
    vsub (so3_rotate (so3_inverse orientation) (velocity state))
         (cross rotation_rate_body imu_in_body) in
  let velocity_body :=
    vsub velocity_body (so3_rotate (so3_inverse orientation) water_velocity) in
  let velocity_6d :=
    mkVector6d (x3 velocity_body) (y3 velocity_body) (z3 velocity_body)
               (x3 rotation_rate_body) (y3 rotation_rate_body)
               (z3 rotation_rate_body) in
  (* assume the angular acceleration to be zero *)
  let acceleration_6d :=
    mkVector6d (x3 acceleration_body) (y3 acceleration_body)
               (z3 acceleration_body) 0 0 0 in
  DynamicModel_calcEfforts acceleration_6d velocity_6d orientation.

(** *** The state augmented with a marker pose *)
Record PoseStateWithMarker := mkPoseStateWithMarker {
  filter_state : PoseState;
  marker_position : Vector3d;
  marker_orientation : SO3 }.

(** [PoseStateWithMarker::DOF] *)
Definition PoseStateWithMarker_DOF : nat := (State_DOF + 3 + 3)%nat.

Definition affine_inverse (a : Affine3d) : Affine3d :=
  let inv := m3_inverse (linear a) in
  mkAffine3d inv (vscale (-1) (m3_mulv inv (translation a))).

Definition measurementVisualLandmark (state : PoseStateWithMarker)
    (feature_pos : Vector3d) (cam_in_imu : Affine3d) : S2 :=
  let imu_in_nav :=
    mkAffine3d (so3_matrix (orientation (filter_state state)))
               (position (filter_state state)) in
  let nav_in_cam := affine_inverse (affine_mul imu_in_nav cam_in_imu) in
  let feature_in_cam :=
    affine_apply nav_in_cam
      (vadd (so3_rotate (marker_orientation state) feature_pos)
            (marker_position state)) in
  S2_of_vector feature_in_cam.

(** *** The update of the engine *)

(** Modelled from the spec: [ukfom::ukf::update(z, h, R, mt)], which the
    engine defines and the filter only calls, as section 4.2 has it (Update,
    steps 1 to 6): the sigma set is the mean followed by the spread, [h] is
    evaluated on each sigma point in turn, and the posterior replaces
    [(mu, sigma)] only when the gate [mt] accepts the squared Mahalanobis
    distance of the innovation. *)
Definition ukf_update {St M : Type} (u : ukfom_ukf St) (z : M)
    (h : St -> Eff M) (R : Matrix) (mt : Q -> bool) : Eff (ukfom_ukf St) :=
  let X := mu u :: sigma_spread St u in
  Z <- mapM h X ;;
  let mahalanobis2 := innovation_mahalanobis2 St M u X Z z R in
  ret (if mt mahalanobis2 then kalman_posterior St M u X Z z R else u).

(** *** The filter object *)
Record PoseUKF := mkPoseUKF {
  ukf : ukfom_ukf PoseState;          (* of the base class *)
  process_noise_cov : Matrix;         (* of the base class *)
  dynamic_model : UWVParameters;
  projection : LocationConfiguration;
  rotation_rate : Vector3d;
  filter_parameter : PoseUKFParameter;
  inertia_offset : Matrix3d;
  lin_damping_offset : Matrix3d;
  quad_damping_offset : Matrix3d;
  water_density_offset : Q }.

Definition set_ukf (f : PoseUKF) (u : ukfom_ukf PoseState) : PoseUKF :=
  mkPoseUKF u (process_noise_cov f) (dynamic_model f) (projection f)
            (rotation_rate f) (filter_parameter f) (inertia_offset f)
            (lin_damping_offset f) (quad_damping_offset f)
            (water_density_offset f).

Definition set_dynamic_model (f : PoseUKF) (dm : UWVParameters) : PoseUKF :=
  mkPoseUKF (ukf f) (process_noise_cov f) dm (projection f)
            (rotation_rate f) (filter_parameter f) (inertia_offset f)
            (lin_damping_offset f) (quad_damping_offset f)
            (water_density_offset f).

Definition set_rotation_rate (f : PoseUKF) (r : Vector3d) : PoseUKF :=
  mkPoseUKF (ukf f) (process_noise_cov f) (dynamic_model f) (projection f)
            r (filter_parameter f) (inertia_offset f)
            (lin_damping_offset f) (quad_damping_offset f)
            (water_density_offset f).

(** The constructor.  [initializeFilter] of the base class installs the
    initial mean and covariance; the process noise the base class holds is
    an input here. *)
Definition PoseUKF_new (initial_state : PoseState) (state_cov : Matrix)
    (location : LocationConfiguration) (model_parameters : UWVParameters)
    (filter_parameter : PoseUKFParameter) (process_noise_cov : Matrix)
    : PoseUKF :=
  {| ukf := mkUkf initial_state state_cov;
     process_noise_cov := process_noise_cov;
     dynamic_model := model_parameters;
     projection := location;
     rotation_rate := Vector3d_Zero;
     filter_parameter := filter_parameter;
     inertia_offset := inertia initial_state;
     lin_damping_offset := lin_damping initial_state;
     quad_damping_offset := quad_damping initial_state;
     water_density_offset := water_density initial_state |}.

(** *** Prediction *)

(** The process noise handed to [predict]. *)
Definition process_noise_of (f : PoseUKF) (delta_t : Q) : Matrix :=
  let rot := so3_matrix (orientation (mu (ukf f))) in
  let process_noise := process_noise_cov f in
  (* uncertainty matrix calculations *)
  let process_noise :=
    set_subblock process_noise f_orientation
      (m3 (m3_mul (m3_mul rot (m3_of (subblock (process_noise_cov f) f_orientation)))
                  (m3_transpose rot))) in
  let scaled_velocity := velocity (mu (ukf f)) in
  (* scale Z velocity to have 10x more impact *)
  let scaled_velocity :=
    mkVector3d (x3 scaled_velocity) (y3 scaled_velocity)
               (10 * z3 scaled_velocity) in
  let process_noise :=
    set_subblock process_noise f_water_velocity
      (fun i j => subblock (process_noise_cov f) f_water_velocity i j
                  + Matrix_Identity i j
                    * water_velocity_scale (filter_parameter f)
                    * squaredNorm scaled_velocity * delta_t) in
  let process_noise :=
    set_subblock process_noise f_water_velocity_below
      (fun i j => subblock (process_noise_cov f) f_water_velocity_below i j
                  + Matrix_Identity i j
                    * water_velocity_scale (filter_parameter f)
                    * squaredNorm scaled_velocity * delta_t) in
  fun i j => pow2 delta_t * process_noise i j.

(** The process function bound for [predict]. *)
Definition process_function (f : PoseUKF) (delta_t : Q) : PoseState -> PoseState :=
  fun state =>
    processModel state (rotation_rate f) (projection f)
                 (inertia_offset f) (lin_damping_offset f)
                 (quad_damping_offset f) (water_density_offset f)
                 (filter_parameter f) delta_t.

Definition predictionStepImpl (f : PoseUKF) (delta_t : Q) : PoseUKF :=
  set_ukf f (ukf_predict PoseState (process_function f delta_t)
                         (process_noise_of f delta_t) (ukf f)).

(** *** Integration of measurements *)

(** [ukf->update(...)] on the filter's own engine and hydrodynamic model. *)
Definition run_update (f : PoseUKF) (c : Eff (ukfom_ukf PoseState))
    : outcome PoseUKF :=
  match c (dynamic_model f) with
  | (Ok u, dm) => Ok (set_dynamic_model (set_ukf f u) dm)
  | (Stop e, _) => Stop e
  end.

Definition getRotationRate (f : PoseUKF) : Vector3d :=
  let (latitude, longitude) :=
    navToWorld (projection f) (x3 (position (mu (ukf f))))
               (y3 (position (mu (ukf f)))) in
  let earth_rotation := earth_rotation_at latitude in
  vsub (vsub (rotation_rate f) (bias_gyro (mu (ukf f))))
       (so3_rotate (so3_inverse (orientation (mu (ukf f)))) earth_rotation).

Definition integrateMeasurement_Velocity (f : PoseUKF)
    (velocity : Measurement Vector3d) : outcome PoseUKF :=
  let _ := checkMeasurment (m_mu velocity) (m_cov velocity) in
  run_update f
    (ukf_update (ukf f) (m_mu velocity)
                (fun s => ret (measurementVelocity s))
                (m_cov velocity) accept_any_mahalanobis_distance).

Definition integrateMeasurement_Acceleration (f : PoseUKF)
    (acceleration : Measurement Vector3d) : outcome PoseUKF :=
  let _ := checkMeasurment (m_mu acceleration) (m_cov acceleration) in
  run_update f
    (ukf_update (ukf f) (m_mu acceleration)
                (fun s => ret (measurementAcceleration s))
                (m_cov acceleration) accept_any_mahalanobis_distance).

Definition integrateMeasurement_RotationRate (f : PoseUKF)
    (rotation_rate : Measurement Vector3d) : outcome PoseUKF :=
  let _ := checkMeasurment (m_mu rotation_rate) (m_cov rotation_rate) in
  Ok (set_rotation_rate f (m_mu rotation_rate)).

Definition integrateMeasurement_Z_Position (f : PoseUKF)
    (z_position : Measurement Q) : outcome PoseUKF :=
  let _ := checkMeasurment (m_mu z_position) (m_cov z_position) in
  run_update f
    (ukf_update (ukf f) (m_mu z_position)
                (fun s => ret (measurementZPosition s))
                (m_cov z_position) accept_any_mahalanobis_distance).

Definition integrateMeasurement_XY_Position (f : PoseUKF)
    (xy_position : Measurement Vector2d) : outcome PoseUKF :=
  let _ := checkMeasurment (m_mu xy_position) (m_cov xy_position) in
  run_update f
    (ukf_update (ukf f) (m_mu xy_position)
                (fun s => ret (measurementXYPosition s))
                (m_cov xy_position) d2p95).

Definition integrateMeasurement_Pressure (f : PoseUKF)
    (pressure : Measurement Q) (pressure_sensor_in_imu : Vector3d)
    : outcome PoseUKF :=
  let _ := checkMeasurment (m_mu pressure) (m_cov pressure) in
  run_update f
    (ukf_update (ukf f) (m_mu pressure)
                (fun s => ret (measurementPressureSensor s pressure_sensor_in_imu
                                 (atmospheric_pressure (filter_parameter f))))
                (m_cov pressure) accept_any_mahalanobis_distance).

Definition integrateMeasurement_GeographicPosition (f : PoseUKF)
    (geo_position : Measurement Vector2d) (gps_in_body : Vector3d)
    : outcome PoseUKF :=
  let _ := checkMeasurment (m_mu geo_position) (m_cov geo_position) in
  (* project geographic position to local NWU plane *)
  let (px, py) :=
    worldToNav (projection f) (x2 (m_mu geo_position)) (y2 (m_mu geo_position)) in
  let projected_position := mkVector2d px py in
  let projected_position :=
    vsub projected_position
         (head2 (so3_rotate (orientation (mu (ukf f))) gps_in_body)) in
  run_update f
    (ukf_update (ukf f) projected_position
                (fun s => ret (measurementXYPosition s))
                (m_cov geo_position) d2p95).

Definition integrateMeasurement_BodyEfforts (f : PoseUKF)
    (body_efforts : Measurement Vector6d) (only_affect_velocity : bool)
    : outcome PoseUKF :=
  let _ := checkMeasurment (m_mu body_efforts) (m_cov body_efforts) in
  if only_affect_velocity then
    (* this allows to constrain only the velocity using the motion model *)
    let water_velocity :=
      mkVector3d (x2 (water_velocity (mu (ukf f))))
                 (y2 (water_velocity (mu (ukf f)))) 0 in
    let rotation_rate_body := getRotationRate f in
    (* assume center of rotation to be the body frame *)
    let acceleration_body :=
      vsub (so3_rotate (so3_inverse (orientation (mu (ukf f))))
                       (acceleration (mu (ukf f))))
           (cross rotation_rate_body
                  (cross rotation_rate_body (imu_in_body (filter_parameter f)))) in
    run_update f
      (ukf_update (ukf f) (m_mu body_efforts)
                  (fun s => constrainVelocity s (imu_in_body (filter_parameter f))
                              rotation_rate_body water_velocity
                              (orientation (mu (ukf f))) acceleration_body)
                  (m_cov body_efforts) accept_any_mahalanobis_distance)
  else
    run_update f
      (ukf_update (ukf f) (m_mu body_efforts)
                  (fun s => measurementEfforts s (imu_in_body (filter_parameter f))
                              (getRotationRate f))
                  (m_cov body_efforts) accept_any_mahalanobis_distance).

Definition integrateMeasurement_WaterVelocity (f : PoseUKF)
    (adcp_measurements : Measurement Vector2d) (cell_weighting : Q)
    : outcome PoseUKF :=
  let _ := checkMeasurment (m_mu adcp_measurements) (m_cov adcp_measurements) in
  run_update f
    (ukf_update (ukf f) (m_mu adcp_measurements)
                (fun s => ret (measurementWaterCurrents s cell_weighting))
                (m_cov adcp_measurements) d2p95).

(** [WS2Type projection(...)]: project image coordinates into S2. *)
Definition feature_projection (camera_config : CameraConfiguration)
    (corner : Measurement Vector2d) : S2 :=
  S2_of_vector
    (mkVector3d ((x2 (m_mu corner) - cx camera_config) / fx camera_config)
                ((y2 (m_mu corner) - cy camera_config) / fy camera_config)
                1).

(** [projection_cov << cov(0,0) / fx2, cov(0,1) / fxy, cov(1,0) / fxy, cov(1,1) / fy2] *)
Definition feature_projection_cov (camera_config : CameraConfiguration)
    (corner : Measurement Vector2d) : Matrix :=
  let fx2 := pow2 (fx camera_config) in
  let fy2 := pow2 (fy camera_config) in
  let fxy := fx camera_config * fy camera_config in
  fun r c =>
    match r, c with
    | 0%nat, 0%nat => m_cov corner 0%nat 0%nat / fx2
    | 0%nat, _ => m_cov corner 0%nat 1%nat / fxy
    | _, 0%nat => m_cov corner 1%nat 0%nat / fxy
    | _, _ => m_cov corner 1%nat 1%nat / fy2
    end.

(** The body of the loop over the marker features, for the feature at
    index [i]. *)
Definition integrate_feature (marker_corners : list (Measurement Vector2d))
    (feature_positions : list Vector3d)
    (camera_config : CameraConfiguration) (camera_in_IMU : Affine3d)
    (i : nat) (augmented_ukf : ukfom_ukf PoseStateWithMarker)
    : Eff (ukfom_ukf PoseStateWithMarker) :=
  corner <- lift_outcome (vector_at marker_corners i) ;;
  let _ := checkMeasurment (m_mu corner) (m_cov corner) in
  let projection := feature_projection camera_config corner in
  let projection_cov := feature_projection_cov camera_config corner in
  feature <- lift_outcome (vector_at feature_positions i) ;;
  ukf_update augmented_ukf projection
             (fun s => ret (measurementVisualLandmark s feature camera_in_IMU))
             projection_cov accept_any_mahalanobis_distance.

(** [for(unsigned i = 0; i < marker_corners.size() || i < feature_positions.size(); i++)],
    started at counter [i] and given [fuel] iterations. *)
Fixpoint features_loop (fuel : nat)
    (marker_corners : list (Measurement Vector2d))
    (feature_positions : list Vector3d)
    (camera_config : CameraConfiguration) (camera_in_IMU : Affine3d)
    (i : N) (augmented_ukf : ukfom_ukf PoseStateWithMarker)
    : Eff (ukfom_ukf PoseStateWithMarker) :=
  if ((i <? N.of_nat (List.length marker_corners))
      || (i <? N.of_nat (List.length feature_positions)))%N
  then
    match fuel with
    | O => lift_outcome (Stop OutOfFuel)
    | S fuel' =>
        augmented_ukf' <-
          integrate_feature marker_corners feature_positions camera_config
                            camera_in_IMU (N.to_nat i) augmented_ukf ;;
        features_loop fuel' marker_corners feature_positions camera_config
                      camera_in_IMU ((i + 1) mod UINT_MODULUS)%N augmented_ukf'
    end
  else ret augmented_ukf.

(** The augmented filter the visual update starts from. *)
Definition augmented_filter (f : PoseUKF) (marker_pose : Affine3d)
    (cov_marker_pose : Matrix) : ukfom_ukf PoseStateWithMarker :=
  (* Augment the filter state with the marker pose *)
  let augmented_state :=
    {| filter_state := mu (ukf f);
       marker_position := translation marker_pose;
       marker_orientation := SO3_of_matrix (affine_rotation marker_pose) |} in
  let augmented_state_cov := Matrix_Zero in
  let augmented_state_cov :=
    set_block augmented_state_cov 0 0 State_DOF State_DOF (sigma (ukf f)) in
  let augmented_state_cov :=
    set_block augmented_state_cov
              (PoseStateWithMarker_DOF - 6) (PoseStateWithMarker_DOF - 6) 6 6
              cov_marker_pose in
  mkUkf augmented_state augmented_state_cov.

Definition integrateMeasurement_VisualFeature (f : PoseUKF)
    (marker_corners : list (Measurement Vector2d))
    (feature_positions : list Vector3d)
    (marker_pose : Affine3d) (cov_marker_pose : Matrix)
    (camera_config : CameraConfiguration) (camera_in_IMU : Affine3d)
    : outcome PoseUKF :=
  let augmented_ukf := augmented_filter f marker_pose cov_marker_pose in
  (* Apply measurements on the augmented state; the loop is given as many
     iterations as the longer vector has elements *)
  match features_loop (Nat.max (List.length marker_corners)
                               (List.length feature_positions))
                      marker_corners feature_positions camera_config
                      camera_in_IMU 0%N augmented_ukf (dynamic_model f) with
  | (Ok augmented_ukf, _) =>
      (* Reconstructing the filter is currently the only way to modify the
         internal state of the filter *)
      Ok (set_ukf f (mkUkf (filter_state (mu augmented_ukf))
                           (block (sigma augmented_ukf) 0 0 State_DOF State_DOF)))
  | (Stop e, _) => Stop e
  end.

(** The overloads of [integrateMeasurement], selected by the measurement. *)
Inductive AnyMeasurement :=
| GeographicPosition (geo_position : Measurement Vector2d) (gps_in_body : Vector3d)
| XY_Position (xy_position : Measurement Vector2d)
| Z_Position (z_position : Measurement Q)
| Pressure (pressure : Measurement Q) (pressure_sensor_in_imu : Vector3d)
| RotationRate (rotation_rate : Measurement Vector3d)
| Acceleration (acceleration : Measurement Vector3d)
| Velocity (velocity : Measurement Vector3d)
| BodyEffortsMeasurement (body_efforts : Measurement Vector6d)
                         (only_affect_velocity : bool)
| WaterVelocityMeasurement (adcp_measurements : Measurement Vector2d)
                           (cell_weighting : Q)
| VisualFeatureMeasurement (marker_corners : list (Measurement Vector2d))
                           (feature_positions : list Vector3d)
                           (marker_pose : Affine3d) (cov_marker_pose : Matrix)
                           (camera_config : CameraConfiguration)
                           (camera_in_IMU : Affine3d).

Definition integrateMeasurement (f : PoseUKF) (m : AnyMeasurement)
    : outcome PoseUKF :=
  match m with
  | GeographicPosition z gps_in_body =>
      integrateMeasurement_GeographicPosition f z gps_in_body
  | XY_Position z => integrateMeasurement_XY_Position f z
  | Z_Position z => integrateMeasurement_Z_Position f z
  | Pressure z pressure_sensor_in_imu =>
      integrateMeasurement_Pressure f z pressure_sensor_in_imu
  | RotationRate z => integrateMeasurement_RotationRate f z
  | Acceleration z => integrateMeasurement_Acceleration f z
  | Velocity z => integrateMeasurement_Velocity f z
  | BodyEffortsMeasurement z only_affect_velocity =>
      integrateMeasurement_BodyEfforts f z only_affect_velocity
  | WaterVelocityMeasurement z cell_weighting =>
      integrateMeasurement_WaterVelocity f z cell_weighting
  | VisualFeatureMeasurement marker_corners feature_positions marker_pose
                             cov_marker_pose camera_config camera_in_IMU =>
      integrateMeasurement_VisualFeature f marker_corners feature_positions
                                         marker_pose cov_marker_pose
                                         camera_config camera_in_IMU
  end.

(** *** The life of a filter: construction, then predictions and
    measurements in any order *)
Inductive Operation :=
| Predict (delta_t : Q)
| Integrate (m : AnyMeasurement).

Fixpoint run (f : PoseUKF) (ops : list Operation) : outcome PoseUKF :=
  match ops with
  | [] => Ok f
  | Predict delta_t :: ops' => run (predictionStepImpl f delta_t) ops'
  | Integrate m :: ops' =>
      match integrateMeasurement f m with
      | Ok f' => run f' ops'
      | Stop e => Stop e
      end
  end.

(** What construction fixes for the life of a filter: the configuration, the
    projection and the four offsets taken from the initial state. *)
Definition same_configuration (f f' : PoseUKF) : Prop :=
  filter_parameter f' = filter_parameter f
  /\ projection f' = projection f
  /\ inertia_offset f' = inertia_offset f
  /\ lin_damping_offset f' = lin_damping_offset f
  /\ quad_damping_offset f' = quad_damping_offset f
  /\ water_density_offset f' = water_density_offset f.

(** *** Updates whose measurement function only reads

    For a measurement function [g] without effects, the sigma set, the
    squared Mahalanobis distance the engine tests and the posterior it would
    install. *)
Definition sigma_set {St : Type} (u : ukfom_ukf St) : list St :=
  mu u :: sigma_spread St u.

Definition update_mahalanobis2 {St M : Type} (u : ukfom_ukf St) (z : M)
    (g : St -> M) (R : Matrix) : Q :=
  innovation_mahalanobis2 St M u (sigma_set u) (map g (sigma_set u)) z R.

Definition update_posterior {St M : Type} (u : ukfom_ukf St) (z : M)
    (g : St -> M) (R : Matrix) : ukfom_ukf St :=
  kalman_posterior St M u (sigma_set u) (map g (sigma_set u)) z R.

(** The accepted update of the augmented filter for one correspondence. *)
Definition feature_update (camera_config : CameraConfiguration)
    (camera_in_IMU : Affine3d)
    (a : ukfom_ukf PoseStateWithMarker)
    (correspondence : Measurement Vector2d * Vector3d)
    : ukfom_ukf PoseStateWithMarker :=
  update_posterior a (feature_projection camera_config (fst correspondence))
    (fun s => measurementVisualLandmark s (snd correspondence) camera_in_IMU)
    (feature_projection_cov camera_config (fst correspondence)).

(** [r] is what an update of [f] under the gate [mt] leaves: the filter with
    the posterior installed when the gate accepts the distance, the filter
    itself when it rejects. *)
Definition gated_by (mt : Q -> bool) (f : PoseUKF) (r : outcome PoseUKF) : Prop :=
  exists (M : Type) (z : M) (g : PoseState -> M) (R : Matrix),
    r = Ok (if mt (update_mahalanobis2 (ukf f) z g R)
            then set_ukf f (update_posterior (ukf f) z g R)
            else f).


(** *** The hydrodynamic parameters seen from outside *)

(** Two parameter sets with the same coefficients. *)
Definition same_parameters (a b : UWVParameters) : Prop :=
  forall i j : nat,
    inertia_matrix a i j = inertia_matrix b i j
    /\ damping_matrices_0 a i j = damping_matrices_0 b i j
    /\ damping_matrices_1 a i j = damping_matrices_1 b i j.

(** Rows and columns 0, 1 and 5 of a 6x6 parameter matrix (surge, sway and
    yaw) and their place in the 3x3 state block. *)
Definition plane_index (i : nat) : option nat :=
  match i with
  | 0%nat => Some 0%nat
  | 1%nat => Some 1%nat
  | 5%nat => Some 2%nat
  | _ => None
  end.

(** *** The specification's formulas *)

(** First-order Gauss-Markov relaxation of one coordinate toward [offset]:
    [x + (-(x - offset) / tau) * delta_time]. *)
Definition gauss_markov (tau delta_time x offset : Q) : Q :=
  x + (- (x - offset) / tau) * delta_time.

(** [x + v * delta_time], one coordinate of an Euler step. *)
Definition euler_step (delta_time x v : Q) : Q := x + v * delta_time.

(** *** Notions for the further properties *)

(** The rotation rate latched after [ops], starting from [current]: the
    mean of the last RotationRate sample among them, if any. *)
Fixpoint last_rotation_rate (current : Vector3d) (ops : list Operation)
    : Vector3d :=
  match ops with
  | [] => current
  | Integrate (RotationRate z) :: ops' => last_rotation_rate (m_mu z) ops'
  | _ :: ops' => last_rotation_rate current ops'
  end.

(** The time constants of a configuration. *)
Definition time_constants (p : PoseUKFParameter) : list Q :=
  [gyro_bias_tau p; acc_bias_tau p; inertia_tau p; lin_damping_tau p;
   quad_damping_tau p; water_velocity_tau p; adcp_bias_tau p;
   water_density_tau p].

(** No coordinate of [new] is farther from [target] than that of [old]. *)
Definition no_farther {T} `{Vect T} (new old target : T) : Prop :=
  forall i, (i < dim)%nat ->
    Qabs (coeff new i - coeff target i) <= Qabs (coeff old i - coeff target i).

(** The zero of a Euclidean manifold, in the shape of [a]. *)
Definition vzero_like {T} `{Vect T} (a : T) : T := vmap (fun _ => 0) a.

Definition symmetric (A : Matrix) : Prop := forall i j : nat, A i j == A j i.

(** The measurements that [integrateMeasurement] handles with every access
    inside its container: all but a body-efforts measurement in full mode
    and a visual batch whose two vectors differ in length. *)
Definition accesses_in_bounds (m : AnyMeasurement) : Prop :=
  match m with
  | BodyEffortsMeasurement _ only_affect_velocity => only_affect_velocity = true
  | VisualFeatureMeasurement marker_corners feature_positions _ _ _ _ =>
      List.length marker_corners = List.length feature_positions
  | _ => True
  end.

(** The sizes of a visual batch fit the 32-bit loop counter. *)
Definition counter_fits (m : AnyMeasurement) : Prop :=
  match m with
  | VisualFeatureMeasurement marker_corners feature_positions _ _ _ _ =>
      (N.of_nat (List.length marker_corners) < UINT_MODULUS)%N
      /\ (N.of_nat (List.length feature_positions) < UINT_MODULUS)%N
  | _ => True
  end.


End Filter.

(** ** A bench to evaluate the model on

    Closed collaborators, simple enough to compute with: rotations are
    rotation matrices and their boxplus is of first order, S2 keeps the
    3-vector it is built from, the projection is a flat earth around its
    origin, the hydrodynamic model is diagonal, the regression returns zero
    efforts, and the engine has no off-centre sigma points, measures the
    distance of an innovation by the inverse of the first measurement
    variance and installs the transformed mean with the covariance it had. *)
Definition bench_skew (w : Vector3d) : Matrix3d :=
  mkMatrix3d 0 (z3 w) (- y3 w)
             (- z3 w) 0 (x3 w)
             (y3 w) (- x3 w) 0.

Definition bench_earth_radius : Q := 6378137.

Definition bench_calcEfforts (p : UWVParameters)
    (acceleration_6d velocity_6d : Vector6d) (q : Matrix3d) : Vector6d :=
  let e (k : nat) (a v : Q) :=
    inertia_matrix p k k * a + damping_matrices_0 p k k * v
    + damping_matrices_1 p k k * Qabs v * v in
  mkVector6d (e 0%nat (e0 acceleration_6d) (e0 velocity_6d))
             (e 1%nat (e1 acceleration_6d) (e1 velocity_6d))
             (e 2%nat (e2 acceleration_6d) (e2 velocity_6d))
             (e 3%nat (e3 acceleration_6d) (e3 velocity_6d))
             (e 4%nat (e4 acceleration_6d) (e4 velocity_6d))
             (e 5%nat (e5 acceleration_6d) (e5 velocity_6d)).

Definition bench : Collaborators := {|
  SO3 := Matrix3d;
  so3_rotate := m3_mulv;
  so3_inverse := m3_transpose;
  so3_matrix := fun q => q;
  so3_boxplus := fun q w scale =>
    m3_mul q (vadd m3_Identity (bench_skew (vscale scale w)));
  SO3_of_matrix := fun m => m;
  S2 := Vector3d;
  S2_of_vector := fun v => v;
  m3_inverse := m3_transpose;
  affine_rotation := linear;
  cos := fun x => 1 - x * x / 2;
  sin := fun x => x;
  EARTHW := 0.000072921150;
  navToWorld := fun origin x y =>
    (latitude origin + x / bench_earth_radius,
     longitude origin + y / bench_earth_radius);
  worldToNav := fun origin lat lon =>
    ((lat - latitude origin) * bench_earth_radius,
     (lon - longitude origin) * bench_earth_radius);
  calcEfforts := bench_calcEfforts;
  predict_efforts := fun _ _ _ _ _ _ _ _ _ _ _ => [0; 0; 0];
  sigma_spread := fun _ _ => [];
  innovation_mahalanobis2 := fun _ _ _ _ _ _ R => / R 0%nat 0%nat;
  kalman_posterior := fun St _ u _ _ _ _ => u;
  ukf_predict := fun St f noise u =>
    mkUkf (f (mu u)) (fun i j => sigma u i j + noise i j)
|}.

(** A vehicle ten metres below the surface, level, moving north at one
    metre per second. *)
Definition bench_state : @PoseState bench :=
  {| position := mkVector3d 0 0 (-10);
     orientation := (m3_Identity : @SO3 bench);
     velocity := mkVector3d 1 0 0;
     acceleration := Vector3d_Zero;
     bias_gyro := Vector3d_Zero;
     bias_acc := Vector3d_Zero;
     gravity := 9.81;
     inertia := mkMatrix3d 2 0 0 0 2 0 0 0 2;
     lin_damping := mkMatrix3d 3 0 0 0 3 0 0 0 3;
     quad_damping := mkMatrix3d 4 0 0 0 4 0 0 0 4;
     water_velocity := mkVector2d 0 0;
     water_velocity_below := mkVector2d 0 0;
     bias_adcp := mkVector2d 1 1;
     water_density := 1025 |}.

(** A configuration whose time constants are one second and whose two
    offsets are (1, 1, 1). *)
Definition bench_parameter : PoseUKFParameter :=
  {| imu_in_body := Vector3d_Zero;
     gyro_bias_offset := mkVector3d 1 1 1;
     gyro_bias_tau := 1;
     acc_bias_offset := mkVector3d 1 1 1;
     acc_bias_tau := 1;
     inertia_tau := 1;
     lin_damping_tau := 1;
     quad_damping_tau := 1;
     water_velocity_tau := 1;
     water_velocity_limits := 1;
     water_velocity_scale := 0.001;
     adcp_bias_tau := 1;
     atmospheric_pressure := 101325;
     water_density_tau := 1 |}.

(** The same configuration with both offsets at zero. *)
Definition bench_parameter_zero_offsets : PoseUKFParameter :=
  {| imu_in_body := Vector3d_Zero;
     gyro_bias_offset := Vector3d_Zero;
     gyro_bias_tau := 1;
     acc_bias_offset := Vector3d_Zero;
     acc_bias_tau := 1;
     inertia_tau := 1;
     lin_damping_tau := 1;
     quad_damping_tau := 1;
     water_velocity_tau := 1;
     water_velocity_limits := 1;
     water_velocity_scale := 0.001;
     adcp_bias_tau := 1;
     atmospheric_pressure := 101325;
     water_density_tau := 1 |}.

Definition bench_location : LocationConfiguration :=
  mkLocationConfiguration 0.9 0.15.

(** Hydrodynamic parameters: three identity matrices. *)
Definition bench_model : UWVParameters :=
  mkUWVParameters Matrix_Identity Matrix_Identity Matrix_Identity.

(** A covariance with 2 everywhere, and one with 1 everywhere. *)
Definition bench_cov : Matrix := fun _ _ => 2.
Definition bench_marker_cov : Matrix := fun _ _ => 1.

Definition bench_filter : @PoseUKF bench :=
  PoseUKF_new bench_state bench_cov bench_location bench_model
              bench_parameter Matrix_Identity.

Definition bench_camera : CameraConfiguration :=
  mkCameraConfiguration 500 500 320 240.

Definition bench_pose : Affine3d := mkAffine3d m3_Identity (mkVector3d 5 0 (-10)).

Definition bench_corner : Measurement Vector2d :=
  mkMeasurement (mkVector2d 320 240) Matrix_Identity.

(** A position fix with a variance of 0.01. *)
Definition bench_fix : Measurement Vector2d :=
  mkMeasurement (mkVector2d 10 10) (fun i j => 0.01 * Matrix_Identity i j).

Definition bench_gyro : Measurement Vector3d :=
  mkMeasurement (mkVector3d 1 0 0) Matrix_Identity.


(** The bench state five metres higher. *)
Definition bench_state_shallow : @PoseState bench :=
  {| position := mkVector3d 0 0 (-5);
     orientation := (m3_Identity : @SO3 bench);
     velocity := mkVector3d 1 0 0;
     acceleration := Vector3d_Zero;
     bias_gyro := Vector3d_Zero;
     bias_acc := Vector3d_Zero;
     gravity := 9.81;
     inertia := mkMatrix3d 2 0 0 0 2 0 0 0 2;
     lin_damping := mkMatrix3d 3 0 0 0 3 0 0 0 3;
     quad_damping := mkMatrix3d 4 0 0 0 4 0 0 0 4;
     water_velocity := mkVector2d 0 0;
     water_velocity_below := mkVector2d 0 0;
     bias_adcp := mkVector2d 1 1;
     water_density := 1025 |}.

(** The bench state with every relaxing field at its offset for
    [bench_parameter_zero_offsets]. *)
Definition bench_state_at_rest : @PoseState bench :=
  {| position := mkVector3d 0 0 (-10);
     orientation := (m3_Identity : @SO3 bench);
     velocity := mkVector3d 1 0 0;
     acceleration := Vector3d_Zero;
     bias_gyro := Vector3d_Zero;
     bias_acc := Vector3d_Zero;
     gravity := 9.81;
     inertia := mkMatrix3d 2 0 0 0 2 0 0 0 2;
     lin_damping := mkMatrix3d 3 0 0 0 3 0 0 0 3;
     quad_damping := mkMatrix3d 4 0 0 0 4 0 0 0 4;
     water_velocity := mkVector2d 0 0;
     water_velocity_below := mkVector2d 0 0;
     bias_adcp := mkVector2d 0 0;
     water_density := 1025 |}.


(** ** Properties *)

Section Properties.

Context {C : Collaborators}.

(** *** Scalars, vectors and blocks *)

Lemma Qgt_bool_iff (a b : Q) : Qgt_bool a b = true <-> b < a.
Proof.
  unfold Qgt_bool. rewrite negb_true_iff.
  split; intro H.
  - apply Qnot_le_lt. intro Hle. apply Qle_bool_iff in Hle. congruence.
  - destruct (Qle_bool a b) eqn:E; [|reflexivity].
    apply Qle_bool_iff in E. exfalso. exact (Qlt_not_le _ _ H E).
Qed.


Lemma veq_refl {T} `{Vect T} (a : T) : a =v= a.
Proof. intros i _. reflexivity. Qed.

Lemma veq_sym {T} `{Vect T} (a b : T) : a =v= b -> b =v= a.
Proof. intros E i Hi. symmetry. exact (E i Hi). Qed.

Lemma veq_trans {T} `{Vect T} (a b c : T) : a =v= b -> b =v= c -> a =v= c.
Proof. intros E1 E2 i Hi. rewrite (E1 i Hi). exact (E2 i Hi). Qed.

(** What [boxplus] computes, coordinate by coordinate. *)
Lemma coeff_boxplus {T} `{Vect T} (x vec : T) (scale : Q) (i : nat) :
  (i < dim)%nat -> coeff (boxplus x vec scale) i = coeff x i + scale * coeff vec i.
Proof.
  intro Hi. unfold boxplus, vadd, vscale.
  rewrite coeff_vzip by exact Hi. rewrite coeff_vmap by exact Hi. reflexivity.
Qed.

(** An Euler step through [boxplus]. *)
Lemma boxplus_euler {T} `{Vect T} (x v : T) (delta_time : Q) :
  boxplus x v delta_time =v= vzip (euler_step delta_time) x v.
Proof.
  intros i Hi. rewrite coeff_boxplus, coeff_vzip by exact Hi.
  unfold euler_step. ring.
Qed.

(** The relaxation the process model writes, [(-1/tau) * (x - offset)]
    applied through [boxplus], is the Gauss-Markov step. *)
Lemma boxplus_gauss_markov {T} `{Vect T} (x offset : T) (tau delta_time : Q) :
  boxplus x (vscale (-1 / tau) (vsub x offset)) delta_time
  =v= vzip (gauss_markov tau delta_time) x offset.
Proof.
  intros i Hi. rewrite coeff_boxplus by exact Hi.
  unfold vscale, vsub. rewrite coeff_vmap by exact Hi.
  rewrite !coeff_vzip by exact Hi.
  unfold gauss_markov, Qdiv. ring.
Qed.

(** The same without an offset: relaxation toward zero. *)
Lemma boxplus_gauss_markov_zero {T} `{Vect T} (x : T) (tau delta_time : Q) :
  boxplus x (vscale (-1 / tau) x) delta_time
  =v= vmap (fun c => gauss_markov tau delta_time c 0) x.
Proof.
  intros i Hi. rewrite coeff_boxplus by exact Hi.
  unfold vscale. rewrite !coeff_vmap by exact Hi.
  unfold gauss_markov, Qdiv. ring.
Qed.

(** *** The process model *)

(** C2: the process model advances position by velocity times the time step,
    orientation (through its boxplus) by the body rate expressed in the
    navigation frame minus the earth rotation
    [EARTHW * (cos lat, 0, sin lat)] at the latitude of the current
    position, velocity by acceleration times the time step, and returns
    acceleration and gravity as they were. *)
Theorem processModel_kinematics
    (state : PoseState) (rotation_rate : Vector3d)
    (projection : LocationConfiguration)
    (inertia_offset lin_damping_offset quad_damping_offset : Matrix3d)
    (water_density_offset : Q) (p : PoseUKFParameter) (delta_time : Q) :
  let new_state :=
    processModel state rotation_rate projection inertia_offset
                 lin_damping_offset quad_damping_offset water_density_offset
                 p delta_time in
  let latitude :=
    fst (navToWorld projection (x3 (position state)) (y3 (position state))) in
  let omega_e := vscale EARTHW (mkVector3d (cos latitude) 0 (sin latitude)) in
  position new_state
    =v= vzip (euler_step delta_time) (position state) (velocity state)
  /\ (exists omega : Vector3d,
        orientation new_state = so3_boxplus (orientation state) omega delta_time
        /\ omega =v= vsub (so3_rotate (orientation state)
                              (vsub rotation_rate (bias_gyro state)))
                          omega_e)
  /\ velocity new_state
       =v= vzip (euler_step delta_time) (velocity state) (acceleration state)
  /\ acceleration new_state = acceleration state
  /\ gravity new_state = gravity state.
Proof.
  intros new_state latitude omega_e.
  subst new_state latitude omega_e. unfold processModel.
  destruct (navToWorld projection (x3 (position state)) (y3 (position state)))
    as [lat lon].
  cbn [position orientation velocity acceleration gravity fst].
  split; [apply boxplus_euler|].
  split.
  - eexists. split; [reflexivity|].
    unfold earth_rotation_at. coordinates.
  - split; [apply boxplus_euler|]. split; reflexivity.
Qed.

(** The relaxation part of the process model, for given offsets. *)
Lemma processModel_relaxation
    (state : PoseState) (rotation_rate : Vector3d)
    (projection : LocationConfiguration)
    (inertia_offset lin_damping_offset quad_damping_offset : Matrix3d)
    (water_density_offset : Q) (p : PoseUKFParameter) (delta_time : Q) :
  let new_state :=
    processModel state rotation_rate projection inertia_offset
                 lin_damping_offset quad_damping_offset water_density_offset
                 p delta_time in
  bias_gyro new_state
    =v= vzip (gauss_markov (gyro_bias_tau p) delta_time)
             (bias_gyro state) (gyro_bias_offset p)
  /\ bias_acc new_state
    =v= vzip (gauss_markov (acc_bias_tau p) delta_time)
             (bias_acc state) (acc_bias_offset p)
  /\ inertia new_state
    =v= vzip (gauss_markov (inertia_tau p) delta_time)
             (inertia state) inertia_offset
  /\ lin_damping new_state
    =v= vzip (gauss_markov (lin_damping_tau p) delta_time)
             (lin_damping state) lin_damping_offset
  /\ quad_damping new_state
    =v= vzip (gauss_markov (quad_damping_tau p) delta_time)
             (quad_damping state) quad_damping_offset
  /\ water_density new_state
    == gauss_markov (water_density_tau p) delta_time
                    (water_density state) water_density_offset
  /\ water_velocity new_state
    =v= vmap (fun c => gauss_markov (water_velocity_tau p) delta_time c 0)
             (water_velocity state)
  /\ water_velocity_below new_state
    =v= vmap (fun c => gauss_markov (water_velocity_tau p) delta_time c 0)
             (water_velocity_below state)
  /\ bias_adcp new_state
    =v= vmap (fun c => gauss_markov (adcp_bias_tau p) delta_time c 0)
             (bias_adcp state).
Proof.
  intro new_state. subst new_state. unfold processModel.
  destruct (navToWorld projection (x3 (position state)) (y3 (position state)))
    as [lat lon].
  cbn [bias_gyro bias_acc inertia lin_damping quad_damping water_density
       water_velocity water_velocity_below bias_adcp].
  repeat split;
    try apply boxplus_gauss_markov; try apply boxplus_gauss_markov_zero.
  unfold boxplus, vadd, vscale, gauss_markov, Qdiv. simpl. ring.
Qed.

(** *** What the operations of a filter leave alone *)

Lemma same_configuration_refl (f : PoseUKF) : same_configuration f f.
Proof. repeat split. Qed.

Lemma same_configuration_trans (f g h : PoseUKF) :
  same_configuration f g -> same_configuration g h -> same_configuration f h.
Proof.
  unfold same_configuration.
  intros (A1 & A2 & A3 & A4 & A5 & A6) (B1 & B2 & B3 & B4 & B5 & B6).
  repeat split; congruence.
Qed.

Lemma run_update_configuration (f f' : PoseUKF)
    (c : Eff (ukfom_ukf PoseState)) :
  run_update f c = Ok f' -> same_configuration f f'.
Proof.
  unfold run_update. destruct (c (dynamic_model f)) as [[u|e] dm]; intro E.
  - injection E as <-. repeat split.
  - discriminate E.
Qed.

Lemma predictionStepImpl_configuration (f : PoseUKF) (delta_t : Q) :
  same_configuration f (predictionStepImpl f delta_t).
Proof. repeat split. Qed.

Lemma integrateMeasurement_configuration (f f' : PoseUKF) (m : AnyMeasurement) :
  integrateMeasurement f m = Ok f' -> same_configuration f f'.
Proof.
  destruct m; simpl; try apply run_update_configuration.
  - unfold integrateMeasurement_GeographicPosition.
    destruct (worldToNav _ _ _). apply run_update_configuration.
  - unfold integrateMeasurement_RotationRate. intro E. injection E as <-.
    repeat split.
  - unfold integrateMeasurement_BodyEfforts.
    destruct only_affect_velocity; apply run_update_configuration.
  - unfold integrateMeasurement_VisualFeature.
    destruct (features_loop _ _ _ _ _ _ _ _) as [[u|e] dm]; intro E.
    + injection E as <-. repeat split.
    + discriminate E.
Qed.

Lemma run_configuration (ops : list Operation) :
  forall f f', run f ops = Ok f' -> same_configuration f f'.
Proof.
  induction ops as [|op ops IH]; intros f f' E; simpl in E.
  - injection E as <-. apply same_configuration_refl.
  - destruct op as [delta_t|m].
    + eapply same_configuration_trans;
        [apply predictionStepImpl_configuration | apply IH; exact E].
    + destruct (integrateMeasurement f m) as [g|e] eqn:Em; [|discriminate E].
      eapply same_configuration_trans;
        [eapply integrateMeasurement_configuration; exact Em | apply IH; exact E].
Qed.

(** C3, as the code has it: in every filter that construction and any
    sequence of predictions and measurements lead to, the process function
    handed to the prediction relaxes bias_gyro and bias_acc toward their
    configured offsets, inertia, lin_damping, quad_damping and water_density
    toward the values the initial state had at construction, and
    water_velocity, water_velocity_below and bias_adcp toward zero, each by
    the Gauss-Markov step with its own time constant. *)
Theorem process_function_relaxation
    (initial_state : PoseState) (state_cov : Matrix)
    (location : LocationConfiguration) (model_parameters : UWVParameters)
    (p : PoseUKFParameter) (noise : Matrix) (ops : list Operation) :
  match run (PoseUKF_new initial_state state_cov location model_parameters
                         p noise) ops with
  | Stop _ => True
  | Ok f =>
      forall (delta_t : Q) (state : PoseState),
      let new_state := process_function f delta_t state in
      predictionStepImpl f delta_t
        = set_ukf f (ukf_predict PoseState (process_function f delta_t)
                                 (process_noise_of f delta_t) (ukf f))
      /\ bias_gyro new_state
        =v= vzip (gauss_markov (gyro_bias_tau p) delta_t)
                 (bias_gyro state) (gyro_bias_offset p)
      /\ bias_acc new_state
        =v= vzip (gauss_markov (acc_bias_tau p) delta_t)
                 (bias_acc state) (acc_bias_offset p)
      /\ inertia new_state
        =v= vzip (gauss_markov (inertia_tau p) delta_t)
                 (inertia state) (inertia initial_state)
      /\ lin_damping new_state
        =v= vzip (gauss_markov (lin_damping_tau p) delta_t)
                 (lin_damping state) (lin_damping initial_state)
      /\ quad_damping new_state
        =v= vzip (gauss_markov (quad_damping_tau p) delta_t)
                 (quad_damping state) (quad_damping initial_state)
      /\ water_density new_state
        == gauss_markov (water_density_tau p) delta_t
                        (water_density state) (water_density initial_state)
      /\ water_velocity new_state
        =v= vmap (fun c => gauss_markov (water_velocity_tau p) delta_t c 0)
                 (water_velocity state)
      /\ water_velocity_below new_state
        =v= vmap (fun c => gauss_markov (water_velocity_tau p) delta_t c 0)
                 (water_velocity_below state)
      /\ bias_adcp new_state
        =v= vmap (fun c => gauss_markov (adcp_bias_tau p) delta_t c 0)
                 (bias_adcp state)
  end.
Proof.
  destruct (run _ ops) as [f|e] eqn:E; [|exact I].
  apply run_configuration in E.
  destruct E as (Ep & _ & Ei & El & Eq & Ew). simpl in Ep, Ei, El, Eq, Ew.
  intros delta_t state new_state. split; [reflexivity|].
  subst new_state. unfold process_function.
  rewrite Ep, Ei, El, Eq, Ew.
  apply processModel_relaxation.
Qed.

(** *** The engine under a gate *)

Lemma mapM_reader {A B : Type} (h : A -> Eff B) (g : UWVParameters -> A -> B)
    (dm : UWVParameters) :
  (forall a, h a dm = (Ok (g dm a), dm)) ->
  forall l, mapM h l dm = (Ok (map (g dm) l), dm).
Proof.
  intros Hh l. induction l as [|a l IH]; simpl.
  - reflexivity.
  - unfold bind at 1. rewrite Hh. unfold bind at 1. rewrite IH. reflexivity.
Qed.

Lemma ukf_update_reader {St M : Type} (u : ukfom_ukf St) (z : M)
    (h : St -> Eff M) (g : UWVParameters -> St -> M) (R : Matrix)
    (mt : Q -> bool) (dm : UWVParameters) :
  (forall s, h s dm = (Ok (g dm s), dm)) ->
  ukf_update u z h R mt dm
  = (Ok (if mt (update_mahalanobis2 u z (g dm) R)
         then update_posterior u z (g dm) R else u), dm).
Proof.
  intro Hh. unfold ukf_update, bind.
  rewrite (mapM_reader h g dm Hh). reflexivity.
Qed.

Lemma set_ukf_same (f : PoseUKF) :
  set_dynamic_model (set_ukf f (ukf f)) (dynamic_model f) = f.
Proof. destruct f. reflexivity. Qed.

Lemma run_update_reader {M : Type} (f : PoseUKF) (z : M)
    (h : PoseState -> Eff M) (g : UWVParameters -> PoseState -> M)
    (R : Matrix) (mt : Q -> bool) :
  (forall s, h s (dynamic_model f) = (Ok (g (dynamic_model f) s), dynamic_model f)) ->
  gated_by mt f (run_update f (ukf_update (ukf f) z h R mt)).
Proof.
  intro Hh. exists M, z, (g (dynamic_model f)), R.
  unfold run_update. rewrite (ukf_update_reader _ _ h g _ _ _ Hh).
  destruct (mt _).
  - reflexivity.
  - rewrite set_ukf_same. reflexivity.
Qed.

Lemma run_update_pure {M : Type} (f : PoseUKF) (z : M) (g : PoseState -> M)
    (R : Matrix) (mt : Q -> bool) :
  gated_by mt f (run_update f (ukf_update (ukf f) z (fun s => ret (g s)) R mt)).
Proof. apply (run_update_reader f z _ (fun _ => g)). reflexivity. Qed.


Lemma d2p99_rejects (mahalanobis2 : Q) :
  d2p99 mahalanobis2 = false <-> 9.21 < mahalanobis2.
Proof.
  unfold d2p99. rewrite <- Qgt_bool_iff.
  destruct (Qgt_bool mahalanobis2 9.21); split; congruence.
Qed.


(** *** The body-efforts measurement model *)

Lemma inject_blocks_coeff (P : Matrix) (s : Matrix3d) (i j : nat) :
  inject_blocks P s i j
  = match plane_index i, plane_index j with
    | Some r, Some c => m3 s r c
    | _, _ => P i j
    end.
Proof.
  destruct i as [|[|[|[|[|[|i]]]]]]; destruct j as [|[|[|[|[|[|j]]]]]];
    reflexivity.
Qed.

Lemma inject_blocks_idempotent (P : Matrix) (s : Matrix3d) (i j : nat) :
  inject_blocks (inject_blocks P s) s i j = inject_blocks P s i j.
Proof.
  rewrite (inject_blocks_coeff (inject_blocks P s)).
  rewrite (inject_blocks_coeff P).
  destruct (plane_index i), (plane_index j); reflexivity.
Qed.

(** Every write of the regression input lands outside the empty vector. *)
Lemma X_writes_out_of_bounds (velocity_6d acceleration_6d : Vector6d) :
  Forall (fun w => VectorXd_write X_default (fst w) (snd w)
                   = Stop (OutOfBounds (fst w) 0))
         (X_writes velocity_6d acceleration_6d).
Proof. unfold X_writes. repeat constructor. Qed.

Lemma regression_input_stops (velocity_6d acceleration_6d : Vector6d) :
  regression_input velocity_6d acceleration_6d = Stop (OutOfBounds 0 0).
Proof. reflexivity. Qed.

(** The evaluation stores the injected parameters in the shared model and
    stops at the first write into [X]. *)
Lemma measurementEfforts_run (state : PoseState)
    (imu_in_body rotation_rate_body : Vector3d) (dm : UWVParameters) :
  measurementEfforts state imu_in_body rotation_rate_body dm
  = (Stop (OutOfBounds 0 0), injected_parameters dm state).
Proof. reflexivity. Qed.

(** C5: the regression input [X] starts as a vector of length zero, the six
    writes go to its indices 0 to 5 with no resize in between, and each
    of them is out of bounds; every evaluation of the full-mode body-efforts
    model therefore stops at the first of them. *)
Theorem regression_input_out_of_bounds
    (state : PoseState) (imu_in_body rotation_rate_body : Vector3d)
    (velocity_6d acceleration_6d : Vector6d) (dm : UWVParameters) :
  List.length X_default = 0%nat
  /\ map fst (X_writes velocity_6d acceleration_6d)
     = [0; 1; 2; 3; 4; 5]%nat
  /\ Forall (fun w => VectorXd_write X_default (fst w) (snd w)
                      = Stop (OutOfBounds (fst w) 0))
            (X_writes velocity_6d acceleration_6d)
  /\ regression_input velocity_6d acceleration_6d = Stop (OutOfBounds 0 0)
  /\ fst (measurementEfforts state imu_in_body rotation_rate_body dm)
     = Stop (OutOfBounds 0 0).
Proof.
  split; [reflexivity|]. split; [reflexivity|].
  split; [apply X_writes_out_of_bounds|].
  split; [apply regression_input_stops|].
  rewrite measurementEfforts_run. reflexivity.
Qed.

(** The same seen from the filter: the engine evaluates the model on the
    mean first, so a full-mode body-efforts update stops there. *)
Lemma full_mode_update_stops (f : PoseUKF) (body_efforts : Measurement Vector6d) :
  integrateMeasurement f (BodyEffortsMeasurement body_efforts false)
  = Stop (OutOfBounds 0 0).
Proof.
  simpl. unfold integrateMeasurement_BodyEfforts, run_update, ukf_update.
  unfold bind at 1. simpl mapM. unfold bind at 1.
  rewrite measurementEfforts_run. reflexivity.
Qed.

(** C6: no evaluation of [measurementEfforts] hands [predict_efforts]
    anything.  The name table is written at index 4 twice, first with
    "fitout_X" and then with "fitout_y", and never at index 5, and the call
    is written with "fitout_y" as its fifth name and the empty string as
    its sixth, whatever its input [X]; but the six writes that are to
    produce [X] come first, they produce no [X] at all, and every
    evaluation, for every state and every regression model, stops at the
    first of them, with a result in which [predict_efforts] has no part. *)
Theorem svr_call_not_reached
    (state : PoseState) (imu_in_body rotation_rate_body : Vector3d)
    (dm : UWVParameters) (X : VectorXd) :
  map fst f_names_assignments = [0; 1; 2; 3; 4; 4; 6; 7; 8; 9]%nat
  /\ nth_error f_names_assignments 4 = Some (4%nat, "fitout_X"%string)
  /\ nth_error f_names_assignments 5 = Some (4%nat, "fitout_y"%string)
  /\ f_names
     = ["scaler_params"; "params_x"; "params_y"; "params_yaw"; "fitout_y";
        EmptyString; "fitout_yaw"; "s_x"; "s_y"; "s_yaw"]%string
  /\ efforts_sklearn_of X
     = predict_efforts X "scaler_params" "params_x" "params_y" "params_yaw"
                       "fitout_y" EmptyString "fitout_yaw" "s_x" "s_y" "s_yaw"
  /\ (forall velocity_6d acceleration_6d : Vector6d,
        regression_input velocity_6d acceleration_6d <> Ok X)
  /\ measurementEfforts state imu_in_body rotation_rate_body dm
     = (Stop (OutOfBounds 0 0), injected_parameters dm state).
Proof.
  assert (Hinput : forall velocity_6d acceleration_6d : Vector6d,
            regression_input velocity_6d acceleration_6d <> Ok X).
  { intros velocity_6d acceleration_6d.
    rewrite regression_input_stops. discriminate. }
  assert (Etable : f_names
            = ["scaler_params"; "params_x"; "params_y"; "params_yaw";
               "fitout_y"; EmptyString; "fitout_yaw"; "s_x"; "s_y";
               "s_yaw"]%string).
  { unfold f_names, f_names_assignments. simpl fold_left. reflexivity. }
  split; [reflexivity|]. split; [reflexivity|]. split; [reflexivity|].
  split; [exact Etable|].
  split; [unfold efforts_sklearn_of, f_names_at; rewrite Etable; reflexivity|].
  split; [exact Hinput|].
  apply measurementEfforts_run.
Qed.

(** C4, as the code has it: the measurement functions bound for the engine
    leave the shared hydrodynamic model as it is, the velocity-only
    body-efforts model included, except the full-mode body-efforts model.  An
    evaluation of that one stores in the shared model the parameters it
    held with rows and columns 0, 1 and 5 of the inertia matrix and of the
    two damping matrices overwritten by the state's inertia, lin_damping and
    quad_damping blocks.  Evaluated again on the same state it returns the
    same result and stores the same parameters. *)
Theorem measurement_effects
    (state : PoseState) (imu_in_body rotation_rate_body : Vector3d)
    (dm : UWVParameters) :
  let stored := snd (measurementEfforts state imu_in_body rotation_rate_body dm) in
  (forall (M : Type) (g : PoseState -> M), ret (g state) dm = (Ok (g state), dm))
  /\ (forall (water_velocity : Vector3d) (q : SO3) (acceleration_body : Vector3d),
        snd (constrainVelocity state imu_in_body rotation_rate_body
                               water_velocity q acceleration_body dm) = dm)
  /\ stored = injected_parameters dm state
  /\ (forall i j : nat,
        inertia_matrix stored i j
        = match plane_index i, plane_index j with
          | Some r, Some c => m3 (inertia state) r c
          | _, _ => inertia_matrix dm i j
          end
        /\ damping_matrices_0 stored i j
        = match plane_index i, plane_index j with
          | Some r, Some c => m3 (lin_damping state) r c
          | _, _ => damping_matrices_0 dm i j
          end
        /\ damping_matrices_1 stored i j
        = match plane_index i, plane_index j with
          | Some r, Some c => m3 (quad_damping state) r c
          | _, _ => damping_matrices_1 dm i j
          end)
  /\ fst (measurementEfforts state imu_in_body rotation_rate_body stored)
     = fst (measurementEfforts state imu_in_body rotation_rate_body dm)
  /\ same_parameters
       (snd (measurementEfforts state imu_in_body rotation_rate_body stored))
       stored.
Proof.
  intro stored. subst stored. rewrite !measurementEfforts_run. simpl fst. simpl snd.
  split; [reflexivity|]. split; [reflexivity|]. split; [reflexivity|].
  split.
  - intros i j. unfold injected_parameters. simpl.
    rewrite !inject_blocks_coeff. repeat split.
  - split; [reflexivity|].
    intros i j. unfold injected_parameters. simpl.
    rewrite !inject_blocks_idempotent. repeat split.
Qed.

(** *** The visual update *)

Lemma skipn_nth_error {A : Type} (l : list A) :
  forall (n : nat) (x : A),
    nth_error l n = Some x -> skipn n l = x :: skipn (S n) l.
Proof.
  induction l as [|a l IH]; intros [|n] x E; simpl in E; try discriminate.
  - injection E as ->. reflexivity.
  - simpl. rewrite (IH n x E). reflexivity.
Qed.

Lemma nth_error_combine {A B : Type} (l1 : list A) :
  forall (l2 : list B) (n : nat) (a : A) (b : B),
    nth_error l1 n = Some a -> nth_error l2 n = Some b ->
    nth_error (combine l1 l2) n = Some (a, b).
Proof.
  induction l1 as [|x l1 IH]; intros [|y l2] [|n] a b E1 E2;
    simpl in *; try discriminate.
  - injection E1 as ->. injection E2 as ->. reflexivity.
  - apply IH; assumption.
Qed.

Lemma vector_at_in_bounds {A : Type} (l : list A) (i : nat) :
  (i < List.length l)%nat -> exists a, nth_error l i = Some a /\ vector_at l i = Ok a.
Proof.
  intro Hi. unfold vector_at.
  destruct (nth_error l i) as [a|] eqn:E.
  - exists a. split; reflexivity.
  - apply nth_error_None in E. lia.
Qed.

Lemma vector_at_out_of_bounds {A : Type} (l : list A) (i : nat) :
  (List.length l <= i)%nat -> vector_at l i = Stop (OutOfBounds i (List.length l)).
Proof.
  intro Hi. unfold vector_at.
  apply nth_error_None in Hi. rewrite Hi. reflexivity.
Qed.

(** With both accesses in bounds, the body of the loop is one accepted
    update. *)
Lemma integrate_feature_in_bounds
    (marker_corners : list (Measurement Vector2d))
    (feature_positions : list Vector3d)
    (camera_config : CameraConfiguration) (camera_in_IMU : Affine3d)
    (i : nat) (a : ukfom_ukf PoseStateWithMarker) (dm : UWVParameters)
    (corner : Measurement Vector2d) (feature : Vector3d) :
  nth_error marker_corners i = Some corner ->
  nth_error feature_positions i = Some feature ->
  integrate_feature marker_corners feature_positions camera_config
                    camera_in_IMU i a dm
  = (Ok (feature_update camera_config camera_in_IMU a (corner, feature)), dm).
Proof.
  intros Ec Ef. unfold integrate_feature, vector_at, bind, lift_outcome.
  rewrite Ec, Ef.
  rewrite (ukf_update_reader _ _ _
             (fun _ s => measurementVisualLandmark s feature camera_in_IMU))
    by reflexivity.
  reflexivity.
Qed.

(** With an access out of bounds, it stops at the first one. *)
Lemma integrate_feature_out_of_bounds
    (marker_corners : list (Measurement Vector2d))
    (feature_positions : list Vector3d)
    (camera_config : CameraConfiguration) (camera_in_IMU : Affine3d)
    (i : nat) (a : ukfom_ukf PoseStateWithMarker) (dm : UWVParameters) :
  (Nat.min (List.length marker_corners) (List.length feature_positions) <= i)%nat ->
  exists size : nat,
    (size <= i)%nat
    /\ (size = List.length marker_corners \/ size = List.length feature_positions)
    /\ integrate_feature marker_corners feature_positions camera_config
                         camera_in_IMU i a dm
       = (Stop (OutOfBounds i size), dm).
Proof.
  intro Hi. unfold integrate_feature, bind, lift_outcome.
  destruct (Nat.le_gt_cases (List.length marker_corners) i) as [Hc|Hc].
  - exists (List.length marker_corners).
    rewrite (vector_at_out_of_bounds _ _ Hc). auto.
  - destruct (vector_at_in_bounds _ _ Hc) as (corner & _ & ->).
    assert (Hf : (List.length feature_positions <= i)%nat) by lia.
    exists (List.length feature_positions).
    rewrite (vector_at_out_of_bounds _ _ Hf). auto.
Qed.

(** The loop from counter [n] on: all remaining correspondences when the two
    vectors have one length, a stop at the end of the shorter one
    otherwise. *)
Lemma features_loop_from
    (marker_corners : list (Measurement Vector2d))
    (feature_positions : list Vector3d)
    (camera_config : CameraConfiguration) (camera_in_IMU : Affine3d)
    (dm : UWVParameters) :
  let a := List.length marker_corners in
  let b := List.length feature_positions in
  (N.of_nat a < UINT_MODULUS)%N -> (N.of_nat b < UINT_MODULUS)%N ->
  forall (fuel n : nat) (u : ukfom_ukf PoseStateWithMarker),
    (n <= Nat.min a b)%nat -> (Nat.max a b <= n + fuel)%nat ->
    features_loop fuel marker_corners feature_positions camera_config
                  camera_in_IMU (N.of_nat n) u dm
    = if (a =? b)%nat
      then (Ok (fold_left (feature_update camera_config camera_in_IMU)
                          (skipn n (combine marker_corners feature_positions)) u),
            dm)
      else (Stop (OutOfBounds (Nat.min a b) (Nat.min a b)), dm).
Proof.
  intros a b Ha Hb fuel.
  induction fuel as [|fuel IH]; intros n u Hn Hfuel.
  - (* no iteration left: the counter is at the end of both vectors *)
    assert (a = b /\ n = a) as [Eab En] by lia.
    rewrite (proj2 (Nat.eqb_eq a b) Eab).
    simpl. fold a b.
    replace ((N.of_nat n <? N.of_nat a)%N) with false
      by (symmetry; apply N.ltb_ge; lia).
    replace ((N.of_nat n <? N.of_nat b)%N) with false
      by (symmetry; apply N.ltb_ge; lia).
    simpl. unfold ret.
    rewrite skipn_all2; [reflexivity|].
    rewrite length_combine. fold a b. lia.
  - simpl. fold a b.
    destruct (Nat.eq_dec n (Nat.min a b)) as [En|En].
    + (* the counter is at the end of the shorter vector *)
      destruct (Nat.eqb_spec a b) as [Eab|Eab].
      * replace ((N.of_nat n <? N.of_nat a)%N) with false
          by (symmetry; apply N.ltb_ge; lia).
        replace ((N.of_nat n <? N.of_nat b)%N) with false
          by (symmetry; apply N.ltb_ge; lia).
        simpl. unfold ret.
        rewrite skipn_all2; [reflexivity|].
        rewrite length_combine. fold a b. lia.
      * assert (Hcond : ((N.of_nat n <? N.of_nat a)
                         || (N.of_nat n <? N.of_nat b))%N = true).
        { apply orb_true_iff.
          destruct (Nat.lt_ge_cases a b).
          - right. apply N.ltb_lt. lia.
          - left. apply N.ltb_lt. lia. }
        rewrite Hcond. unfold bind at 1. rewrite Nat2N.id.
        destruct (integrate_feature_out_of_bounds marker_corners
                    feature_positions camera_config camera_in_IMU n u dm)
          as (size & Hsize & Hwhich & ->); [fold a b; lia|].
        fold a b in Hwhich.
        replace size with (Nat.min a b) by lia.
        rewrite <- En. reflexivity.
    + (* both vectors have an element at the counter *)
      assert (Hlt : (n < Nat.min a b)%nat) by lia.
      replace ((N.of_nat n <? N.of_nat a)%N) with true
        by (symmetry; apply N.ltb_lt; lia).
      simpl. unfold bind at 1. rewrite Nat2N.id.
      destruct (vector_at_in_bounds marker_corners n) as (corner & Ec & _);
        [fold a; lia|].
      destruct (vector_at_in_bounds feature_positions n) as (feature & Ef & _);
        [fold b; lia|].
      rewrite (integrate_feature_in_bounds _ _ _ _ _ _ _ _ _ Ec Ef).
      replace ((N.of_nat n + 1) mod UINT_MODULUS)%N with (N.of_nat (S n)).
      * rewrite IH by lia.
        rewrite (skipn_nth_error _ n (corner, feature)
                   (nth_error_combine _ _ _ _ _ Ec Ef)).
        reflexivity.
      * rewrite N.mod_small by lia. lia.
Qed.

Lemma integrateMeasurement_VisualFeature_run (f : PoseUKF)
    (marker_corners : list (Measurement Vector2d))
    (feature_positions : list Vector3d)
    (marker_pose : Affine3d) (cov_marker_pose : Matrix)
    (camera_config : CameraConfiguration) (camera_in_IMU : Affine3d) :
  let a := List.length marker_corners in
  let b := List.length feature_positions in
  (N.of_nat a < UINT_MODULUS)%N -> (N.of_nat b < UINT_MODULUS)%N ->
  integrateMeasurement_VisualFeature f marker_corners feature_positions
    marker_pose cov_marker_pose camera_config camera_in_IMU
  = if (a =? b)%nat
    then
      let posterior :=
        fold_left (feature_update camera_config camera_in_IMU)
                  (combine marker_corners feature_positions)
                  (augmented_filter f marker_pose cov_marker_pose) in
      Ok (set_ukf f (mkUkf (filter_state (mu posterior))
                           (block (sigma posterior) 0 0 State_DOF State_DOF)))
    else Stop (OutOfBounds (Nat.min a b) (Nat.min a b)).
Proof.
  intros a b Ha Hb. unfold integrateMeasurement_VisualFeature.
  rewrite (features_loop_from marker_corners feature_positions camera_config
             camera_in_IMU (dynamic_model f) Ha Hb _ 0%nat)
    by (fold a b; lia).
  fold a b. destruct (a =? b)%nat; reflexivity.
Qed.

(** C7: the loop over the features goes on while its counter is below the
    size of either vector; with vectors of one length every access
    [marker_corners[i]] and [feature_positions[i]] is in bounds and the update
    returns a filter, with vectors of different lengths the access at the
    end of the shorter one is out of bounds. *)
Theorem visual_loop_bounds (f : PoseUKF)
    (marker_corners : list (Measurement Vector2d))
    (feature_positions : list Vector3d)
    (marker_pose : Affine3d) (cov_marker_pose : Matrix)
    (camera_config : CameraConfiguration) (camera_in_IMU : Affine3d) :
  let a := List.length marker_corners in
  let b := List.length feature_positions in
  let r := integrateMeasurement_VisualFeature f marker_corners
             feature_positions marker_pose cov_marker_pose camera_config
             camera_in_IMU in
  (N.of_nat a < UINT_MODULUS)%N -> (N.of_nat b < UINT_MODULUS)%N ->
  (forall (fuel : nat) (i : N) (u : ukfom_ukf PoseStateWithMarker)
          (dm : UWVParameters),
     features_loop (S fuel) marker_corners feature_positions camera_config
                   camera_in_IMU i u dm
     = if ((i <? N.of_nat a) || (i <? N.of_nat b))%N
       then bind (integrate_feature marker_corners feature_positions
                    camera_config camera_in_IMU (N.to_nat i) u)
                 (fun u' => features_loop fuel marker_corners
                              feature_positions camera_config camera_in_IMU
                              ((i + 1) mod UINT_MODULUS)%N u') dm
       else (Ok u, dm))
  /\ (a = b <-> exists f', r = Ok f')
  /\ (a = b <-> forall index size, r <> Stop (OutOfBounds index size))
  /\ (a <> b -> r = Stop (OutOfBounds (Nat.min a b) (Nat.min a b))).
Proof.
  intros a b r Ha Hb. subst r.
  rewrite (integrateMeasurement_VisualFeature_run f marker_corners
             feature_positions marker_pose cov_marker_pose camera_config
             camera_in_IMU Ha Hb).
  fold a b.
  split.
  - intros fuel i u dm. simpl. fold a b.
    destruct ((i <? N.of_nat a) || (i <? N.of_nat b))%N; reflexivity.
  - destruct (Nat.eqb_spec a b) as [E|E].
    + split; [|split].
      * split; [intros _; eexists; reflexivity | intros _; exact E].
      * split; [intros _ index size; discriminate | intros _; exact E].
      * intro Hne. contradiction.
    + split; [|split].
      * split; [intro; contradiction | intros [f' H]; discriminate H].
      * split; [intro; contradiction|].
        intro H. exfalso. exact (H _ _ eq_refl).
      * intros _. reflexivity.
Qed.

(** *** Blocks of a covariance *)

Lemma State_DOF_value : State_DOF = 53%nat.
Proof. reflexivity. Qed.

Lemma PoseStateWithMarker_DOF_value : PoseStateWithMarker_DOF = 59%nat.
Proof. reflexivity. Qed.

Lemma in_block_true (r c nr nc i j : nat) :
  in_block r c nr nc i j = true
  <-> (r <= i < r + nr)%nat /\ (c <= j < c + nc)%nat.
Proof.
  unfold in_block. rewrite !andb_true_iff, !Nat.leb_le, !Nat.ltb_lt. lia.
Qed.

Lemma in_block_false (r c nr nc i j : nat) :
  in_block r c nr nc i j = false
  <-> ~ ((r <= i < r + nr)%nat /\ (c <= j < c + nc)%nat).
Proof.
  rewrite <- in_block_true. destruct (in_block r c nr nc i j); split; congruence.
Qed.

(** The covariance the augmented filter starts from, coefficient by
    coefficient. *)
Lemma augmented_covariance (f : PoseUKF) (marker_pose : Affine3d)
    (cov_marker_pose : Matrix) (i j : nat) :
  sigma (augmented_filter f marker_pose cov_marker_pose) i j
  = if ((i <? 53) && (j <? 53))%nat then sigma (ukf f) i j
    else if in_block 53 53 6 6 i j
         then cov_marker_pose (i - 53)%nat (j - 53)%nat
         else 0.
Proof.
  unfold augmented_filter. simpl sigma. unfold set_block.
  change (PoseStateWithMarker_DOF - 6)%nat with 53%nat.
  change State_DOF with 53%nat.
  destruct (in_block 53 53 6 6 i j) eqn:Em.
  - apply in_block_true in Em.
    replace (i <? 53)%nat with false by (symmetry; apply Nat.ltb_ge; lia).
    reflexivity.
  - unfold in_block, Matrix_Zero. simpl.
    destruct (i <? 53)%nat; [|reflexivity].
    destruct (j <? 53)%nat; [|reflexivity].
    rewrite !Nat.sub_0_r. reflexivity.
Qed.

(** C8, as the code has it: on marker corners and feature positions of one
    length, the visual update builds the augmented state from
    the current mean and the marker pose, with a covariance of
    [PoseStateWithMarker::DOF] = 59 rows whose top-left [State::DOF] = 53 rows
    and columns hold the current covariance, whose bottom-right 6x6 block
    holds the marker-pose covariance and whose other coefficients are zero;
    it runs one accepted S2 update per correspondence, in order, and installs
    the PoseState component of the posterior mean with the top-left 53x53
    block of the posterior covariance, nothing of the marker block. *)
Theorem visual_update_structure (f : PoseUKF)
    (marker_corners : list (Measurement Vector2d))
    (feature_positions : list Vector3d)
    (marker_pose : Affine3d) (cov_marker_pose : Matrix)
    (camera_config : CameraConfiguration) (camera_in_IMU : Affine3d) :
  let augmented := augmented_filter f marker_pose cov_marker_pose in
  let posterior :=
    fold_left (feature_update camera_config camera_in_IMU)
              (combine marker_corners feature_positions) augmented in
  (N.of_nat (List.length marker_corners) < UINT_MODULUS)%N ->
  List.length marker_corners = List.length feature_positions ->
  State_DOF = 53%nat /\ PoseStateWithMarker_DOF = 59%nat
  /\ mu augmented
     = {| filter_state := mu (ukf f);
          marker_position := translation marker_pose;
          marker_orientation := SO3_of_matrix (affine_rotation marker_pose) |}
  /\ (forall i j : nat,
        sigma augmented i j
        = if ((i <? 53) && (j <? 53))%nat then sigma (ukf f) i j
          else if in_block 53 53 6 6 i j
               then cov_marker_pose (i - 53)%nat (j - 53)%nat
               else 0)
  /\ (forall (i : nat) (a : ukfom_ukf PoseStateWithMarker)
             (dm : UWVParameters) (corner : Measurement Vector2d)
             (feature : Vector3d),
        nth_error marker_corners i = Some corner ->
        nth_error feature_positions i = Some feature ->
        integrate_feature marker_corners feature_positions camera_config
                          camera_in_IMU i a dm
        = (Ok (update_posterior a
                 (feature_projection camera_config corner)
                 (fun s => measurementVisualLandmark s feature camera_in_IMU)
                 (feature_projection_cov camera_config corner)), dm))
  /\ integrateMeasurement_VisualFeature f marker_corners feature_positions
       marker_pose cov_marker_pose camera_config camera_in_IMU
     = Ok (set_ukf f (mkUkf (filter_state (mu posterior))
                            (block (sigma posterior) 0 0 State_DOF State_DOF)))
  /\ (forall i j : nat,
        block (sigma posterior) 0 0 State_DOF State_DOF i j
        = if ((i <? 53) && (j <? 53))%nat then sigma posterior i j else 0).
Proof.
  intros augmented posterior Hsize Hlen.
  split; [reflexivity|]. split; [reflexivity|]. split; [reflexivity|].
  split; [intros i j; apply augmented_covariance|].
  split; [intros i a dm corner feature Ec Ef;
          apply (integrate_feature_in_bounds _ _ _ _ _ _ _ _ _ Ec Ef)|].
  split.
  - rewrite integrateMeasurement_VisualFeature_run
      by (try rewrite <- Hlen; exact Hsize).
    rewrite Hlen, Nat.eqb_refl. reflexivity.
  - intros i j. reflexivity.
Qed.

(** *** The process noise of a prediction *)

(** C9: the process noise handed to the prediction is the configured one
    with its orientation block replaced by [R * Q_orient * R^T], [R] the
    rotation matrix of the current orientation, and with
    [s * |v_scaled|^2 * delta_t] times the 2x2 identity added to its
    water_velocity and water_velocity_below blocks, [v_scaled] the current
    velocity with its third coordinate multiplied by 10 and [s] the
    configured water_velocity_scale; every coefficient of the result is then
    multiplied by the square of the time step. *)
Theorem process_noise_modulation (f : PoseUKF) (delta_t : Q) :
  let Q0 := process_noise_cov f in
  let noise := process_noise_of f delta_t in
  let R := so3_matrix (orientation (mu (ukf f))) in
  let Q_orient := m3_of (block Q0 3 3 3 3) in
  let v := velocity (mu (ukf f)) in
  let v_scaled := mkVector3d (x3 v) (y3 v) (10 * z3 v) in
  let s := water_velocity_scale (filter_parameter f) in
  predictionStepImpl f delta_t
    = set_ukf f (ukf_predict PoseState (process_function f delta_t) noise (ukf f))
  /\ (field_IDX f_orientation = 3 /\ field_IDX f_water_velocity = 46
      /\ field_IDX f_water_velocity_below = 48)%nat
  /\ (forall i j : nat, (i < 3)%nat -> (j < 3)%nat ->
        noise (3 + i)%nat (3 + j)%nat
        == delta_t * delta_t
           * m3 (m3_mul (m3_mul R Q_orient) (m3_transpose R)) i j)
  /\ (forall i j : nat, (i < 2)%nat -> (j < 2)%nat ->
        noise (46 + i)%nat (46 + j)%nat
        == delta_t * delta_t
           * (Q0 (46 + i)%nat (46 + j)%nat
              + (if (i =? j)%nat then 1 else 0)
                * s * squaredNorm v_scaled * delta_t))
  /\ (forall i j : nat, (i < 2)%nat -> (j < 2)%nat ->
        noise (48 + i)%nat (48 + j)%nat
        == delta_t * delta_t
           * (Q0 (48 + i)%nat (48 + j)%nat
              + (if (i =? j)%nat then 1 else 0)
                * s * squaredNorm v_scaled * delta_t))
  /\ (forall i j : nat,
        in_block 3 3 3 3 i j = false ->
        in_block 46 46 2 2 i j = false ->
        in_block 48 48 2 2 i j = false ->
        noise i j == delta_t * delta_t * Q0 i j).
Proof.
  intros Q0 noise R Q_orient v v_scaled s.
  split; [reflexivity|]. split; [repeat split|].
  subst noise. unfold process_noise_of, set_subblock, subblock, set_block, pow2.
  change (field_IDX f_orientation) with 3%nat.
  change (field_IDX f_water_velocity) with 46%nat.
  change (field_IDX f_water_velocity_below) with 48%nat.
  change (field_DOF f_orientation) with 3%nat.
  change (field_DOF f_water_velocity) with 2%nat.
  change (field_DOF f_water_velocity_below) with 2%nat.
  fold Q0 R v s.
  split; [|split; [|split]].
  - intros i j Hi Hj.
    destruct i as [|[|[|i]]]; try lia;
      destruct j as [|[|[|j]]]; try lia; reflexivity.
  - intros i j Hi Hj.
    destruct i as [|[|i]]; try lia;
      destruct j as [|[|j]]; try lia; reflexivity.
  - intros i j Hi Hj.
    destruct i as [|[|i]]; try lia;
      destruct j as [|[|j]]; try lia; reflexivity.
  - intros i j H1 H2 H3. rewrite H3, H2, H1. reflexivity.
Qed.

(** *** The pressure measurement *)

(** C10: the pressure model returns
    [P_atm - z_sensor * gravity * water_density], [z_sensor] the third
    coordinate of [position + orientation * r_sensor_in_imu], and the
    pressure update binds [P_atm] to the configured atmospheric pressure; at
    a depth of 10 (position.z = -10) with the sensor at the IMU origin,
    gravity 9.81, water density 1025 and 101325 of atmospheric pressure it
    returns 201877.5. *)
Theorem pressure_measurement (state : PoseState)
    (pressure_sensor_in_imu : Vector3d) (P_atm : Q)
    (f : PoseUKF) (pressure : Measurement Q) :
  let z_sensor :=
    z3 (vadd (position state)
             (so3_rotate (orientation state) pressure_sensor_in_imu)) in
  measurementPressureSensor state pressure_sensor_in_imu P_atm
    = P_atm - z_sensor * gravity state * water_density state
  /\ integrateMeasurement f (Pressure pressure pressure_sensor_in_imu)
     = run_update f
         (ukf_update (ukf f) (m_mu pressure)
            (fun s => ret (measurementPressureSensor s pressure_sensor_in_imu
                             (atmospheric_pressure (filter_parameter f))))
            (m_cov pressure) accept_any_mahalanobis_distance)
  /\ (z3 (position state) == -10 ->
      so3_rotate (orientation state) Vector3d_Zero =v= Vector3d_Zero ->
      gravity state == 9.81 ->
      water_density state == 1025 ->
      measurementPressureSensor state Vector3d_Zero 101325 == 201877.5
      /\ Qabs (measurementPressureSensor state Vector3d_Zero 101325 - 201877.5)
         <= 0.5).
Proof.
  intro z_sensor. split; [reflexivity|]. split; [reflexivity|].
  intros Hz Hrot Hg Hrho.
  assert (E : measurementPressureSensor state Vector3d_Zero 101325 == 201877.5).
  { unfold measurementPressureSensor. simpl.
    specialize (Hrot 2%nat). simpl in Hrot.
    rewrite Hz, Hrot by lia. rewrite Hg, Hrho. reflexivity. }
  split; [exact E|].
  rewrite E. vm_compute. discriminate.
Qed.

(** ** Further properties of the code *)

(** *** The gates *)

Lemma d2p95_accepts (mahalanobis2 : Q) :
  d2p95 mahalanobis2 = true <-> mahalanobis2 <= 5.991.
Proof.
  unfold d2p95, Qgt_bool. rewrite <- Qle_bool_iff.
  destruct (Qle_bool mahalanobis2 5.991); simpl; split; congruence.
Qed.

Lemma d2p99_accepts (mahalanobis2 : Q) :
  d2p99 mahalanobis2 = true <-> mahalanobis2 <= 9.21.
Proof.
  unfold d2p99, Qgt_bool. rewrite <- Qle_bool_iff.
  destruct (Qle_bool mahalanobis2 9.21); simpl; split; congruence.
Qed.

(** X1: what the p95 gate accepts, it accepts at every smaller distance too,
    and the p99 gate accepts all of it. *)
Theorem gates_downward_closed (d d' : Q) :
  d <= d' -> d2p95 d' = true ->
  d2p95 d = true /\ d2p99 d = true /\ d2p99 d' = true.
Proof.
  intros Hle Hacc. apply d2p95_accepts in Hacc.
  assert (Hthresholds : 5.991 <= 9.21) by (apply Qle_bool_iff; reflexivity).
  split; [|split].
  - apply d2p95_accepts. eapply Qle_trans; eassumption.
  - apply d2p99_accepts.
    eapply Qle_trans; [exact Hle|]. eapply Qle_trans; eassumption.
  - apply d2p99_accepts. eapply Qle_trans; eassumption.
Qed.

(** *** Measurements after a step of the process model *)

(** X3: after a step of the process model the expected XY and Z position
    measurements are the ones before the step plus the time step times the
    horizontal and the vertical velocity. *)
Theorem predicted_position_measurements
    (state : PoseState) (rotation_rate : Vector3d)
    (projection : LocationConfiguration)
    (inertia_offset lin_damping_offset quad_damping_offset : Matrix3d)
    (water_density_offset : Q) (p : PoseUKFParameter) (delta_time : Q) :
  let new_state :=
    processModel state rotation_rate projection inertia_offset
                 lin_damping_offset quad_damping_offset water_density_offset
                 p delta_time in
  measurementXYPosition new_state
    =v= boxplus (measurementXYPosition state) (head2 (velocity state)) delta_time
  /\ measurementZPosition new_state
     == measurementZPosition state + delta_time * z3 (velocity state).
Proof.
  intro new_state. subst new_state.
  unfold processModel, measurementXYPosition, measurementZPosition.
  destruct (navToWorld projection (x3 (position state)) (y3 (position state)))
    as [lat lon].
  cbn [position]. split.
  - coordinates.
  - simpl. reflexivity.
Qed.

(** *** The pressure measurement *)

(** X4: of two states with the same orientation, gravity and water density,
    neither of them negative, the deeper one has the higher expected
    pressure, for any lever arm of the sensor. *)
Theorem pressure_increases_with_depth (deep shallow : PoseState)
    (pressure_sensor_in_imu : Vector3d) (P_atm : Q) :
  orientation deep = orientation shallow ->
  gravity deep = gravity shallow ->
  water_density deep = water_density shallow ->
  0 <= gravity deep -> 0 <= water_density deep ->
  z3 (position deep) <= z3 (position shallow) ->
  measurementPressureSensor shallow pressure_sensor_in_imu P_atm
  <= measurementPressureSensor deep pressure_sensor_in_imu P_atm.
Proof.
  intros Ho Hg Hrho Hg0 Hrho0 Hz.
  unfold measurementPressureSensor. rewrite <- Ho, <- Hg, <- Hrho.
  simpl.
  apply Qplus_le_r. apply Qopp_le_compat.
  apply Qmult_le_compat_r; [|exact Hrho0].
  apply Qmult_le_compat_r; [|exact Hg0].
  apply Qplus_le_l. exact Hz.
Qed.

(** *** The process model at rest and in small steps *)

Lemma boxplus_zero_step {T} `{Vect T} (x vec : T) : boxplus x vec 0 =v= x.
Proof. intros i Hi. rewrite coeff_boxplus by exact Hi. ring. Qed.

Lemma boxplus_at_offset {T} `{Vect T} (x offset : T) (k delta_time : Q) :
  x =v= offset ->
  boxplus x (vscale k (vsub x offset)) delta_time =v= x.
Proof.
  intros E i Hi. rewrite coeff_boxplus by exact Hi.
  unfold vscale, vsub. rewrite coeff_vmap, coeff_vzip by exact Hi.
  rewrite (E i Hi). ring.
Qed.

Lemma boxplus_at_zero {T} `{Vect T} (x : T) (k delta_time : Q) :
  x =v= vzero_like x ->
  boxplus x (vscale k x) delta_time =v= x.
Proof.
  intros E i Hi. rewrite coeff_boxplus by exact Hi.
  unfold vscale. rewrite coeff_vmap by exact Hi.
  specialize (E i Hi). unfold vzero_like in E.
  rewrite coeff_vmap in E by exact Hi. rewrite E. ring.
Qed.

(** X5: in a filter none of whose time constants is zero, a prediction
    over a time step of zero moves no Euclidean field of the state (each
    keeps its value, acceleration and gravity as always) and hands the
    engine a process noise that is zero everywhere.  The time constants are
    the divisors of the relaxation rates: the source divides by them as
    they are. *)
Theorem zero_time_step (f : PoseUKF) (state : PoseState) :
  Forall (fun tau => ~ tau == 0) (time_constants (filter_parameter f)) ->
  let new_state := process_function f 0 state in
  (position new_state =v= position state
   /\ velocity new_state =v= velocity state
   /\ acceleration new_state = acceleration state
   /\ gravity new_state = gravity state)
  /\ (bias_gyro new_state =v= bias_gyro state
      /\ bias_acc new_state =v= bias_acc state
      /\ inertia new_state =v= inertia state
      /\ lin_damping new_state =v= lin_damping state
      /\ quad_damping new_state =v= quad_damping state)
  /\ (water_velocity new_state =v= water_velocity state
      /\ water_velocity_below new_state =v= water_velocity_below state
      /\ bias_adcp new_state =v= bias_adcp state
      /\ water_density new_state == water_density state)
  /\ (forall i j : nat, process_noise_of f 0 i j == 0).
Proof.
  intros _ new_state. subst new_state. unfold process_function, processModel.
  destruct (navToWorld (projection f) (x3 (position state))
                       (y3 (position state))) as [lat lon].
  cbn [position velocity acceleration gravity bias_gyro bias_acc inertia
       lin_damping quad_damping water_velocity water_velocity_below
       bias_adcp water_density].
  split; [|split; [|split]].
  - split; [apply boxplus_zero_step|]. split; [apply boxplus_zero_step|].
    split; reflexivity.
  - repeat split; apply boxplus_zero_step.
  - split; [apply boxplus_zero_step|]. split; [apply boxplus_zero_step|].
    split; [apply boxplus_zero_step|].
    unfold boxplus, vadd, vscale. simpl. ring.
  - intros i j. unfold process_noise_of, pow2. ring.
Qed.

(** X6: a state whose relaxing fields sit at their offsets (the two biases
    at the configured ones, inertia, dampings and density at the given
    ones, the water velocities and the ADCP bias at zero) keeps all of them
    through a step of the process model, whatever the time step, as long as
    none of the time constants, by which the source divides, is zero. *)
Theorem relaxation_equilibrium
    (state : PoseState) (rotation_rate : Vector3d)
    (projection : LocationConfiguration)
    (inertia_offset lin_damping_offset quad_damping_offset : Matrix3d)
    (water_density_offset : Q) (p : PoseUKFParameter) (delta_time : Q) :
  let new_state :=
    processModel state rotation_rate projection inertia_offset
                 lin_damping_offset quad_damping_offset water_density_offset
                 p delta_time in
  Forall (fun tau => ~ tau == 0) (time_constants p) ->
  bias_gyro state =v= gyro_bias_offset p ->
  bias_acc state =v= acc_bias_offset p ->
  inertia state =v= inertia_offset ->
  lin_damping state =v= lin_damping_offset ->
  quad_damping state =v= quad_damping_offset ->
  water_density state == water_density_offset ->
  water_velocity state =v= vzero_like (water_velocity state) ->
  water_velocity_below state =v= vzero_like (water_velocity_below state) ->
  bias_adcp state =v= vzero_like (bias_adcp state) ->
  bias_gyro new_state =v= bias_gyro state
  /\ bias_acc new_state =v= bias_acc state
  /\ inertia new_state =v= inertia state
  /\ lin_damping new_state =v= lin_damping state
  /\ quad_damping new_state =v= quad_damping state
  /\ water_density new_state == water_density state
  /\ water_velocity new_state =v= water_velocity state
  /\ water_velocity_below new_state =v= water_velocity_below state
  /\ bias_adcp new_state =v= bias_adcp state.
Proof.
  intros new_state _ Hg Ha Hi Hl Hq Hd Hw Hwb Hb. subst new_state.
  unfold processModel.
  destruct (navToWorld projection (x3 (position state)) (y3 (position state)))
    as [lat lon].
  cbn [bias_gyro bias_acc inertia lin_damping quad_damping water_density
       water_velocity water_velocity_below bias_adcp].
  split; [apply boxplus_at_offset; exact Hg|].
  split; [apply boxplus_at_offset; exact Ha|].
  split; [apply boxplus_at_offset; exact Hi|].
  split; [apply boxplus_at_offset; exact Hl|].
  split; [apply boxplus_at_offset; exact Hq|].
  split; [unfold boxplus, vadd, vscale; simpl; rewrite Hd; ring|].
  split; [apply boxplus_at_zero; exact Hw|].
  split; [apply boxplus_at_zero; exact Hwb|].
  apply boxplus_at_zero; exact Hb.
Qed.

(** One Gauss-Markov step of at most one time constant does not move a
    coordinate away from its offset. *)
Lemma gauss_markov_no_farther (tau delta_time x offset : Q) :
  0 <= delta_time -> 0 < tau /\ delta_time <= tau ->
  Qabs (gauss_markov tau delta_time x offset - offset) <= Qabs (x - offset).
Proof.
  intros Hdt [Htau Hle].
  assert (Hlow : 0 <= delta_time / tau).
  { apply Qle_shift_div_l; [exact Htau|]. lra. }
  assert (Hhigh : delta_time / tau <= 1).
  { apply Qle_shift_div_r; [exact Htau|]. lra. }
  assert (E : gauss_markov tau delta_time x offset - offset
              == (1 - delta_time / tau) * (x - offset)).
  { unfold gauss_markov. field. intro Hz. rewrite Hz in Htau.
    exact (Qlt_irrefl 0 Htau). }
  rewrite E, Qabs_Qmult.
  rewrite (Qabs_pos (1 - delta_time / tau)) by lra.
  rewrite <- (Qmult_1_l (Qabs (x - offset))) at 2.
  apply Qmult_le_compat_r; [lra | apply Qabs_nonneg].
Qed.

Lemma relaxed_no_farther {T} `{Vect T} (new x offset : T)
    (tau delta_time : Q) :
  0 <= delta_time -> 0 < tau /\ delta_time <= tau ->
  new =v= vzip (gauss_markov tau delta_time) x offset ->
  no_farther new x offset.
Proof.
  intros Hdt Htau E i Hi. rewrite (E i Hi), coeff_vzip by exact Hi.
  apply gauss_markov_no_farther; assumption.
Qed.

Lemma relaxed_to_zero_no_farther {T} `{Vect T} (new x : T)
    (tau delta_time : Q) :
  0 <= delta_time -> 0 < tau /\ delta_time <= tau ->
  new =v= vmap (fun c => gauss_markov tau delta_time c 0) x ->
  no_farther new x (vzero_like x).
Proof.
  intros Hdt Htau E i Hi. unfold vzero_like.
  rewrite (E i Hi), !coeff_vmap by exact Hi.
  apply gauss_markov_no_farther; assumption.
Qed.

(** X7: with positive time constants and a time step between zero and the
    smallest of them, a step of the process model moves no coordinate of a
    relaxing field farther from its offset than it was. *)
Theorem relaxation_contracts
    (state : PoseState) (rotation_rate : Vector3d)
    (projection : LocationConfiguration)
    (inertia_offset lin_damping_offset quad_damping_offset : Matrix3d)
    (water_density_offset : Q) (p : PoseUKFParameter) (delta_time : Q) :
  let new_state :=
    processModel state rotation_rate projection inertia_offset
                 lin_damping_offset quad_damping_offset water_density_offset
                 p delta_time in
  0 <= delta_time ->
  Forall (fun tau => 0 < tau /\ delta_time <= tau) (time_constants p) ->
  no_farther (bias_gyro new_state) (bias_gyro state) (gyro_bias_offset p)
  /\ no_farther (bias_acc new_state) (bias_acc state) (acc_bias_offset p)
  /\ no_farther (inertia new_state) (inertia state) inertia_offset
  /\ no_farther (lin_damping new_state) (lin_damping state) lin_damping_offset
  /\ no_farther (quad_damping new_state) (quad_damping state)
                quad_damping_offset
  /\ no_farther (water_density new_state) (water_density state)
                water_density_offset
  /\ no_farther (water_velocity new_state) (water_velocity state)
                (vzero_like (water_velocity state))
  /\ no_farther (water_velocity_below new_state) (water_velocity_below state)
                (vzero_like (water_velocity_below state))
  /\ no_farther (bias_adcp new_state) (bias_adcp state)
                (vzero_like (bias_adcp state)).
Proof.
  intros new_state Hdt Htaus.
  destruct (processModel_relaxation state rotation_rate projection
              inertia_offset lin_damping_offset quad_damping_offset
              water_density_offset p delta_time)
    as (Eg & Ea & Ei & El & Eq & Ed & Ew & Ewb & Eb).
  fold new_state in Eg, Ea, Ei, El, Eq, Ed, Ew, Ewb, Eb.
  unfold time_constants in Htaus.
  repeat match goal with
         | H : Forall _ (_ :: _) |- _ =>
             let a := fresh "Htau" in
             let b := fresh "Hrest" in
             apply Forall_cons_iff in H; destruct H as [a b]
         end.
  split; [exact (relaxed_no_farther _ _ _ _ _ Hdt Htau Eg)|].
  split; [exact (relaxed_no_farther _ _ _ _ _ Hdt Htau0 Ea)|].
  split; [exact (relaxed_no_farther _ _ _ _ _ Hdt Htau1 Ei)|].
  split; [exact (relaxed_no_farther _ _ _ _ _ Hdt Htau2 El)|].
  split; [exact (relaxed_no_farther _ _ _ _ _ Hdt Htau3 Eq)|].
  split.
  { intros i Hi.
    change (Qabs (water_density new_state - water_density_offset)
            <= Qabs (water_density state - water_density_offset)).
    rewrite Ed. apply gauss_markov_no_farther; assumption. }
  split; [exact (relaxed_to_zero_no_farther _ _ _ _ Hdt Htau4 Ew)|].
  split; [exact (relaxed_to_zero_no_farther _ _ _ _ Hdt Htau4 Ewb)|].
  exact (relaxed_to_zero_no_farther _ _ _ _ Hdt Htau5 Eb).
Qed.

(** *** The process noise of a prediction, continued *)

Lemma in_block_diagonal_sym (r n i j : nat) :
  in_block r r n n i j = in_block r r n n j i.
Proof.
  unfold in_block.
  destruct (r <=? i)%nat, (i <? r + n)%nat, (r <=? j)%nat, (j <? r + n)%nat;
    reflexivity.
Qed.

(** X9: with a water-velocity scale and a time step that are not negative,
    the modulation does not lower the variances of the two water
    velocities: each is at least the configured one times the squared time
    step. *)
Theorem water_velocity_variance_not_lowered (f : PoseUKF) (delta_t : Q)
    (k : nat) :
  0 <= water_velocity_scale (filter_parameter f) -> 0 <= delta_t ->
  (k < 2)%nat ->
  delta_t * delta_t * process_noise_cov f (46 + k)%nat (46 + k)%nat
    <= process_noise_of f delta_t (46 + k)%nat (46 + k)%nat
  /\ delta_t * delta_t * process_noise_cov f (48 + k)%nat (48 + k)%nat
    <= process_noise_of f delta_t (48 + k)%nat (48 + k)%nat.
Proof.
  intros Hs Hdt Hk.
  set (v := mkVector3d (x3 (velocity (mu (ukf f))))
                       (y3 (velocity (mu (ukf f))))
                       (10 * z3 (velocity (mu (ukf f))))).
  assert (Hn : 0 <= squaredNorm v).
  { unfold squaredNorm.
    generalize (x3 v) (y3 v) (z3 v). intros a b c. nra. }
  assert (Hadd : 0 <= delta_t * delta_t
                      * (water_velocity_scale (filter_parameter f)
                         * squaredNorm v * delta_t)).
  { repeat apply Qmult_le_0_compat; assumption. }
  assert (E : process_noise_of f delta_t (46 + k)%nat (46 + k)%nat
              == delta_t * delta_t
                 * (process_noise_cov f (46 + k)%nat (46 + k)%nat
                    + 1 * water_velocity_scale (filter_parameter f)
                      * squaredNorm v * delta_t)
              /\ process_noise_of f delta_t (48 + k)%nat (48 + k)%nat
              == delta_t * delta_t
                 * (process_noise_cov f (48 + k)%nat (48 + k)%nat
                    + 1 * water_velocity_scale (filter_parameter f)
                      * squaredNorm v * delta_t)).
  { unfold process_noise_of, set_subblock, subblock, set_block, pow2.
    change (field_IDX f_orientation) with 3%nat.
    change (field_IDX f_water_velocity) with 46%nat.
    change (field_IDX f_water_velocity_below) with 48%nat.
    change (field_DOF f_orientation) with 3%nat.
    change (field_DOF f_water_velocity) with 2%nat.
    change (field_DOF f_water_velocity_below) with 2%nat.
    destruct k as [|[|k]]; try lia; split; reflexivity. }
  destruct E as [E46 E48].
  rewrite E46, E48. split; lra.
Qed.

(** *** What a measurement changes, and when it is integrated *)

Lemma gated_by_frame (mt : Q -> bool) (f f' : PoseUKF) (r : outcome PoseUKF) :
  gated_by mt f r -> r = Ok f' -> f' = set_ukf f (ukf f').
Proof.
  intros (M & z & g & R & E) Er. rewrite E in Er.
  injection Er as <-.
  destruct (mt _); [reflexivity | destruct f; reflexivity].
Qed.

Lemma gated_by_returns (mt : Q -> bool) (f : PoseUKF) (r : outcome PoseUKF) :
  gated_by mt f r -> exists f', r = Ok f'.
Proof. intros (M & z & g & R & E). rewrite E. eexists. reflexivity. Qed.

(** The velocity-only body-efforts update is an update whose measurement
    function only reads the hydrodynamic model. *)
Lemma velocity_only_update_gated (f : PoseUKF)
    (body_efforts : Measurement Vector6d) :
  gated_by accept_any_mahalanobis_distance f
           (integrateMeasurement_BodyEfforts f body_efforts true).
Proof.
  unfold integrateMeasurement_BodyEfforts.
  eapply (run_update_reader f _ _ (fun dm s => calcEfforts dm _ _ _)).
  intro s. reflexivity.
Qed.

(** Every measurement but a full-mode body-efforts one and a visual batch is
    integrated as a gated update, or latched. *)
Lemma integrateMeasurement_cases (f : PoseUKF) (m : AnyMeasurement) :
  match m with
  | RotationRate z =>
      integrateMeasurement f m = Ok (set_rotation_rate f (m_mu z))
  | BodyEffortsMeasurement _ false => True
  | VisualFeatureMeasurement _ _ _ _ _ _ => True
  | _ => exists mt, gated_by mt f (integrateMeasurement f m)
  end.
Proof.
  destruct m; simpl; try exact I.
  - unfold integrateMeasurement_GeographicPosition.
    destruct (worldToNav _ _ _). eexists. apply run_update_pure.
  - eexists. apply run_update_pure.
  - eexists. apply run_update_pure.
  - eexists. apply run_update_pure.
  - reflexivity.
  - eexists. apply run_update_pure.
  - eexists. apply run_update_pure.
  - destruct only_affect_velocity; [|exact I].
    eexists. apply velocity_only_update_gated.
  - eexists. apply run_update_pure.
Qed.

Lemma integrateMeasurement_frame (f f' : PoseUKF) (m : AnyMeasurement) :
  integrateMeasurement f m = Ok f' ->
  match m with
  | RotationRate z => f' = set_rotation_rate f (m_mu z)
  | _ => f' = set_ukf f (ukf f')
  end.
Proof.
  intro E. pose proof (integrateMeasurement_cases f m) as Hc.
  destruct m; cbv beta iota in Hc;
    try (match type of Hc with
         | ex _ => destruct Hc as [mt Hg]; exact (gated_by_frame _ _ _ _ Hg E)
         end).
  - rewrite Hc in E. injection E as <-. reflexivity.
  - destruct only_affect_velocity.
    + destruct Hc as [mt Hg]. exact (gated_by_frame _ _ _ _ Hg E).
    + rewrite full_mode_update_stops in E. discriminate E.
  - simpl in E. unfold integrateMeasurement_VisualFeature in E.
    destruct (features_loop _ _ _ _ _ _ _ _) as [[u|e] dm];
      [|discriminate E].
    injection E as <-. reflexivity.
Qed.

(** X10: after any sequence of predictions and measurements that comes
    back with a filter, that filter differs from the one it started from
    only in the engine's mean and covariance and in the latched rotation
    rate, which is the mean of the last RotationRate sample of the sequence
    (the rate latched before, if there was none): configuration, projection,
    offsets, process noise and hydrodynamic parameters are untouched. *)
Theorem run_frame (ops : list Operation) (f f' : PoseUKF) :
  run f ops = Ok f' ->
  f' = set_rotation_rate (set_ukf f (ukf f'))
                         (last_rotation_rate (rotation_rate f) ops).
Proof.
  revert f. induction ops as [|op ops IH]; intros f E; simpl in E.
  - injection E as <-. destruct f. reflexivity.
  - destruct op as [delta_t|m].
    + apply IH in E. exact E.
    + destruct (integrateMeasurement f m) as [g|e] eqn:Em; [|discriminate E].
      apply IH in E. apply integrateMeasurement_frame in Em.
      destruct m; rewrite Em in E; exact E.
Qed.

(** What [integrateMeasurement] leaves, by the accesses it makes. *)
Lemma integrateMeasurement_outcome (f : PoseUKF) (m : AnyMeasurement) :
  counter_fits m ->
  (accesses_in_bounds m /\ exists f', integrateMeasurement f m = Ok f')
  \/ (~ accesses_in_bounds m
      /\ exists index size,
           integrateMeasurement f m = Stop (OutOfBounds index size)).
Proof.
  intro Hfit. pose proof (integrateMeasurement_cases f m) as Hc.
  destruct m; cbv beta iota in Hc;
    try (match type of Hc with
         | ex _ => destruct Hc as [mt Hg]; left;
                   split; [exact I | exact (gated_by_returns _ _ _ Hg)]
         end).
  - left. split; [exact I | eexists; exact Hc].
  - destruct only_affect_velocity; simpl accesses_in_bounds.
    + left. split; [reflexivity|]. destruct Hc as [mt Hg].
      exact (gated_by_returns _ _ _ Hg).
    + right. split; [discriminate|].
      exists 0%nat, 0%nat. apply full_mode_update_stops.
  - destruct Hfit as [Ha Hb]. simpl integrateMeasurement.
    simpl accesses_in_bounds.
    rewrite (integrateMeasurement_VisualFeature_run f marker_corners
               feature_positions marker_pose cov_marker_pose camera_config
               camera_in_IMU Ha Hb).
    destruct (Nat.eqb_spec (List.length marker_corners)
                           (List.length feature_positions)) as [E|E].
    + left. split; [exact E | eexists; reflexivity].
    + right. split; [exact E | eexists _, _; reflexivity].
Qed.

(** X11: for a measurement whose visual vectors, if any, fit the loop
    counter, [integrateMeasurement] makes an access outside a container
    exactly when the measurement is a body-efforts measurement in full mode,
    where it is the write at index 0 of the empty [X], or a visual batch
    whose two vectors differ in length, where it is the read at the end of
    the shorter one.  On every other measurement no access is out of
    bounds. *)
Theorem integrateMeasurement_out_of_bounds_exactly
    (f : PoseUKF) (m : AnyMeasurement) :
  counter_fits m ->
  let r := integrateMeasurement f m in
  (accesses_in_bounds m
   <-> forall index size : nat, r <> Stop (OutOfBounds index size))
  /\ (~ accesses_in_bounds m
      <-> exists index size : nat, r = Stop (OutOfBounds index size))
  /\ match m with
     | BodyEffortsMeasurement _ false => r = Stop (OutOfBounds 0 0)
     | VisualFeatureMeasurement marker_corners feature_positions _ _ _ _ =>
         let a := List.length marker_corners in
         let b := List.length feature_positions in
         a <> b -> r = Stop (OutOfBounds (Nat.min a b) (Nat.min a b))
     | _ => True
     end.
Proof.
  intros Hfit r.
  destruct (integrateMeasurement_outcome f m Hfit)
    as [[Hin [f' E]] | [Hout (index & size & E)]]; fold r in E.
  - split; [|split].
    + split; [intros _ index size; rewrite E; discriminate | intros _; exact Hin].
    + split; [intro Hn; contradiction|].
      intros (index & size & E'). rewrite E in E'. discriminate E'.
    + destruct m; try exact I.
      * destruct only_affect_velocity; [exact I|]. discriminate Hin.
      * intros a b Hab. contradiction.
  - split; [|split].
    + split; [intro Hin; contradiction|].
      intro Hnone. exfalso. exact (Hnone index size E).
    + split; [intros _; exists index, size; exact E | intros _; exact Hout].
    + destruct m; try exact I.
      * destruct only_affect_velocity; [exact I|].
        apply full_mode_update_stops.
      * intros a b Hab. destruct Hfit as [Ha Hb]. subst r.
        simpl integrateMeasurement.
        rewrite (integrateMeasurement_VisualFeature_run f marker_corners
                   feature_positions marker_pose cov_marker_pose camera_config
                   camera_in_IMU Ha Hb).
        destruct (Nat.eqb_spec (List.length marker_corners)
                               (List.length feature_positions)) as [E'|E'];
          [contradiction | reflexivity].
Qed.

(** X12: a visual batch without any feature comes back with a filter that
    has the mean it had, and the covariance it had on all of its 53 rows
    and columns; nothing else of the filter changes. *)
Theorem empty_visual_batch (f : PoseUKF) (marker_pose : Affine3d)
    (cov_marker_pose : Matrix) (camera_config : CameraConfiguration)
    (camera_in_IMU : Affine3d) :
  exists f',
    integrateMeasurement_VisualFeature f [] [] marker_pose cov_marker_pose
                                       camera_config camera_in_IMU = Ok f'
    /\ mu (ukf f') = mu (ukf f)
    /\ (forall i j : nat, (i < State_DOF)%nat -> (j < State_DOF)%nat ->
          sigma (ukf f') i j = sigma (ukf f) i j)
    /\ f' = set_ukf f (ukf f').
Proof.
  eexists. split; [reflexivity|]. split; [reflexivity|]. split.
  - intros i j Hi Hj. rewrite State_DOF_value in Hi, Hj.
    cbn [ukf set_ukf sigma]. unfold block.
    change State_DOF with 53%nat.
    replace (i <? 53)%nat with true by (symmetry; apply Nat.ltb_lt; exact Hi).
    replace (j <? 53)%nat with true by (symmetry; apply Nat.ltb_lt; exact Hj).
    cbn [andb Nat.add]. rewrite augmented_covariance.
    replace (i <? 53)%nat with true by (symmetry; apply Nat.ltb_lt; exact Hi).
    replace (j <? 53)%nat with true by (symmetry; apply Nat.ltb_lt; exact Hj).
    reflexivity.
  - reflexivity.
Qed.

(** *** Symmetry through the visual update *)

(** X13: the covariance of the augmented filter is symmetric when the
    filter's covariance and the marker-pose covariance are. *)
Theorem augmented_covariance_symmetric (f : PoseUKF) (marker_pose : Affine3d)
    (cov_marker_pose : Matrix) :
  symmetric (sigma (ukf f)) -> symmetric cov_marker_pose ->
  symmetric (sigma (augmented_filter f marker_pose cov_marker_pose)).
Proof.
  intros Hs Hm i j.
  rewrite (augmented_covariance f marker_pose cov_marker_pose i j).
  rewrite (augmented_covariance f marker_pose cov_marker_pose j i).
  rewrite (andb_comm (j <? 53)%nat), (in_block_diagonal_sym 53 6 j i).
  destruct ((i <? 53) && (j <? 53))%nat; [apply Hs|].
  destruct (in_block 53 53 6 6 i j); [apply Hm | reflexivity].
Qed.

(** X14: for a camera neither of whose focal lengths is zero (the source
    divides by their squares and by their product), the 2x2 covariance of a
    feature's projection is symmetric when the two off-diagonal coefficients
    of its pixel covariance agree. *)
Theorem ray_covariance_symmetric (camera_config : CameraConfiguration)
    (corner : Measurement Vector2d) :
  ~ fx camera_config == 0 -> ~ fy camera_config == 0 ->
  m_cov corner 0%nat 1%nat == m_cov corner 1%nat 0%nat ->
  symmetric (feature_projection_cov camera_config corner).
Proof.
  intros _ _ Hoff r c. unfold feature_projection_cov.
  destruct r as [|r], c as [|c]; try reflexivity.
  - rewrite Hoff. reflexivity.
  - rewrite Hoff. reflexivity.
Qed.

(** *** The rotation rate the filter reports *)


(** *** The process model over the life of a filter *)

(** X17: in every filter that construction and any sequence of predictions
    and measurements lead to, the process function keeps the inertia, the
    two dampings and the water density of a state that carries the values of
    the initial state, as long as none of the four time constants by which
    the source divides their relaxation rates is zero: the parameters the
    filter started with are stationary. *)
Theorem initial_parameters_stationary
    (initial_state : PoseState) (state_cov : Matrix)
    (location : LocationConfiguration) (model_parameters : UWVParameters)
    (p : PoseUKFParameter) (noise : Matrix) (ops : list Operation)
    (f : PoseUKF) (delta_t : Q) (state : PoseState) :
  run (PoseUKF_new initial_state state_cov location model_parameters p noise)
      ops = Ok f ->
  ~ inertia_tau p == 0 -> ~ lin_damping_tau p == 0 ->
  ~ quad_damping_tau p == 0 -> ~ water_density_tau p == 0 ->
  inertia state =v= inertia initial_state ->
  lin_damping state =v= lin_damping initial_state ->
  quad_damping state =v= quad_damping initial_state ->
  water_density state == water_density initial_state ->
  let new_state := process_function f delta_t state in
  inertia new_state =v= inertia initial_state
  /\ lin_damping new_state =v= lin_damping initial_state
  /\ quad_damping new_state =v= quad_damping initial_state
  /\ water_density new_state == water_density initial_state.
Proof.
  intros Hrun _ _ _ _ Hi Hl Hq Hd new_state.
  apply run_configuration in Hrun.
  destruct Hrun as (_ & _ & Ei & El & Eq & Ed). simpl in Ei, El, Eq, Ed.
  subst new_state. unfold process_function, processModel.
  rewrite Ei, El, Eq, Ed.
  destruct (navToWorld (projection f) (x3 (position state))
                       (y3 (position state))) as [lat lon].
  cbn [inertia lin_damping quad_damping water_density].
  split; [eapply veq_trans; [apply boxplus_at_offset|]; assumption|].
  split; [eapply veq_trans; [apply boxplus_at_offset|]; assumption|].
  split; [eapply veq_trans; [apply boxplus_at_offset|]; assumption|].
  unfold boxplus, vadd, vscale. simpl. rewrite Hd. ring.
Qed.

End Properties.

(** ** The model on the bench *)

(** The p95 gate accepts a distance of exactly 5.991 and rejects the next
    thousandth; the p99 gate accepts 9.21. *)
Example d2p95_at_threshold :
  d2p95 5.991 = true /\ d2p95 5.992 = false /\ d2p99 9.21 = true
  /\ d2p99 9.22 = false.
Proof. repeat split. Qed.

(** One second of the process model on the bench state: one metre north,
    the depth and the velocity as they were. *)
Example processModel_on_bench :
  let new_state :=
    processModel (C := bench) bench_state Vector3d_Zero bench_location
      (inertia bench_state) (lin_damping bench_state)
      (quad_damping bench_state) (water_density bench_state)
      bench_parameter 1 in
  position new_state =v= mkVector3d 1 0 (-10)
  /\ velocity new_state =v= mkVector3d 1 0 0
  /\ inertia new_state =v= inertia bench_state
  /\ bias_gyro new_state =v= mkVector3d 1 1 1.
Proof.
  intro new_state. subst new_state.
  split; [evaluate_coordinates|]. split; [evaluate_coordinates|].
  split; evaluate_coordinates.
Qed.

(** The static-pressure scenario once more, in binary64 arithmetic and in
    the order of operations of the source: no rounding shows at this
    depth. *)
#[warnings="-inexact-float"]
Example static_pressure_binary64 :
  PrimFloat.eqb
    (PrimFloat.sub 101325%float
       (PrimFloat.mul (PrimFloat.mul (-10)%float 9.81%float) 1025%float))
    201877.5%float
  = true.
Proof. vm_compute. reflexivity. Qed.

(** The tangent offsets of the blocks the prediction touches, and the two
    sizes. *)
Example tangent_layout :
  map field_IDX fields
    = [0; 3; 6; 9; 12; 15; 18; 19; 28; 37; 46; 48; 50; 52]%nat
  /\ State_DOF = 53%nat /\ PoseStateWithMarker_DOF = 59%nat.
Proof. repeat split. Qed.

(** The sixth name handed to the regression is empty. *)
Example sixth_name_is_empty :
  f_names_at 5 = EmptyString /\ f_names_at 4 = "fitout_y"%string.
Proof. split; reflexivity. Qed.

(** A full-mode body-efforts measurement on the bench filter stops at
    [X[0]]; in velocity-only mode it is integrated. *)
Example body_efforts_on_bench :
  let z := mkMeasurement (mkVector6d 0 0 0 0 0 0) Matrix_Identity in
  integrateMeasurement (C := bench) bench_filter (BodyEffortsMeasurement z false)
    = Stop (OutOfBounds 0 0)
  /\ exists f', integrateMeasurement (C := bench) bench_filter
                  (BodyEffortsMeasurement z true) = Ok f'.
Proof.
  intro z. split; [reflexivity|]. eexists. reflexivity.
Qed.

(** A prediction, a rejected position fix and a gyro sample on the bench
    filter: the offsets taken at construction are still those of the initial
    state and only the gyro sample changed the latched rate. *)
Example life_of_a_filter_on_bench :
  exists f',
    run (C := bench) bench_filter
        [Predict 1; Integrate (XY_Position bench_fix);
         Integrate (RotationRate bench_gyro)] = Ok f'
    /\ inertia_offset f' = inertia bench_state
    /\ water_density_offset f' = water_density bench_state
    /\ rotation_rate f' = mkVector3d 1 0 0.
Proof. eexists. repeat split. Qed.

(** ** The properties on the bench *)

(** C10 at the bench state: ten metres deep, level, with gravity 9.81 and
    density 1025, the model returns 201877.5. *)
Lemma pressure_measurement_witness :
  z3 (position bench_state) == -10
  /\ @so3_rotate bench (orientation bench_state) Vector3d_Zero
     =v= Vector3d_Zero
  /\ gravity bench_state == 9.81
  /\ water_density bench_state == 1025
  /\ measurementPressureSensor (C := bench) bench_state Vector3d_Zero 101325
     == 201877.5
  /\ Qabs (measurementPressureSensor (C := bench) bench_state Vector3d_Zero
             101325 - 201877.5) <= 0.5.
Proof.
  assert (Hz : z3 (position bench_state) == -10) by reflexivity.
  assert (Hrot : @so3_rotate bench (orientation bench_state)
                   Vector3d_Zero =v= Vector3d_Zero) by coordinates.
  assert (Hg : gravity bench_state == 9.81) by reflexivity.
  assert (Hrho : water_density bench_state == 1025) by reflexivity.
  split; [exact Hz|]. split; [exact Hrot|]. split; [exact Hg|].
  split; [exact Hrho|].
  exact (proj2 (proj2 (pressure_measurement (C := bench) bench_state
                         Vector3d_Zero 101325 bench_filter
                         (mkMeasurement 0 Matrix_Identity)))
           Hz Hrot Hg Hrho).
Defined.



(** C3 as stated fails on bias_adcp: with both configured offsets at
    (1, 1, 1), or both at zero, a bias_adcp of (1, 1) goes to (0, 0) in one
    step of one second with a time constant of one second, where relaxation
    toward a configured offset of 1 would leave it at (1, 1). *)
Lemma adcp_bias_ignores_configured_offsets :
  let step (p : PoseUKFParameter) :=
    processModel (C := bench) bench_state Vector3d_Zero bench_location
      (inertia bench_state) (lin_damping bench_state)
      (quad_damping bench_state) (water_density bench_state) p 1 in
  let toward (offset : Vector3d) :=
    vzip (gauss_markov 1 1) (bias_adcp bench_state) (head2 offset) in
  bias_adcp (step bench_parameter) =v= mkVector2d 0 0
  /\ bias_adcp (step bench_parameter_zero_offsets) =v= mkVector2d 0 0
  /\ toward (gyro_bias_offset bench_parameter) =v= mkVector2d 1 1
  /\ ~ bias_adcp (step bench_parameter)
       =v= toward (gyro_bias_offset bench_parameter)
  /\ ~ bias_adcp (step bench_parameter)
       =v= toward (acc_bias_offset bench_parameter).
Proof.
  intros step toward. subst step toward.
  split; [evaluate_coordinates|]. split; [evaluate_coordinates|].
  split; [evaluate_coordinates|].
  split; intro H; specialize (H 0%nat ltac:(simpl; lia));
    vm_compute in H; discriminate H.
Qed.

(** C4 as stated fails on the full-mode body-efforts model: evaluated on the
    bench state against identity parameter matrices, it leaves 2, 3 and 4
    where the inertia and the two damping matrices had 1. *)
Lemma efforts_model_overwrites_parameters :
  let stored :=
    snd (measurementEfforts (C := bench) bench_state Vector3d_Zero
                            Vector3d_Zero bench_model) in
  inertia_matrix bench_model 0%nat 0%nat = 1
  /\ inertia_matrix stored 0%nat 0%nat = 2
  /\ damping_matrices_0 stored 1%nat 1%nat = 3
  /\ damping_matrices_1 stored 5%nat 5%nat = 4
  /\ ~ inertia_matrix stored 0%nat 0%nat == inertia_matrix bench_model 0%nat 0%nat
  /\ ~ same_parameters stored bench_model.
Proof.
  intro stored.
  split; [reflexivity|]. split; [reflexivity|]. split; [reflexivity|].
  split; [reflexivity|]. split.
  - intro H. vm_compute in H. discriminate H.
  - intro H. destruct (H 0%nat 0%nat) as (E & _).
    vm_compute in E. discriminate E.
Qed.

(** C7 on the bench: one marker corner against two feature positions stops
    out of bounds at index 1. *)
Lemma visual_loop_bounds_witness :
  (N.of_nat (List.length [bench_corner]) < UINT_MODULUS)%N
  /\ (N.of_nat (List.length [Vector3d_Zero; mkVector3d 1 0 0]) < UINT_MODULUS)%N
  /\ integrateMeasurement_VisualFeature (C := bench) bench_filter
       [bench_corner] [Vector3d_Zero; mkVector3d 1 0 0] bench_pose
       bench_marker_cov bench_camera (mkAffine3d m3_Identity Vector3d_Zero)
     = Stop (OutOfBounds 1 1).
Proof.
  split; [reflexivity|]. split; [reflexivity|].
  apply (visual_loop_bounds (C := bench) bench_filter [bench_corner]
           [Vector3d_Zero; mkVector3d 1 0 0] bench_pose bench_marker_cov
           bench_camera (mkAffine3d m3_Identity Vector3d_Zero)
           eq_refl eq_refl).
  simpl. discriminate.
Defined.

(** C8 as stated fails on the sizes: the state has 53 degrees of freedom and
    the augmented one 59, so that row and column 36 of the augmented
    covariance lie inside the block of the current covariance (2 on the
    bench) and the marker-pose covariance (1 on the bench) starts at row
    and column 53. *)
Lemma augmented_covariance_is_not_42_wide :
  let augmented :=
    augmented_filter (C := bench) bench_filter bench_pose bench_marker_cov in
  State_DOF = 53%nat /\ PoseStateWithMarker_DOF = 59%nat
  /\ sigma augmented 36%nat 36%nat = sigma (ukf bench_filter) 36%nat 36%nat
  /\ sigma augmented 36%nat 36%nat = 2
  /\ bench_marker_cov 0%nat 0%nat = 1
  /\ sigma augmented 0%nat 36%nat = 2
  /\ sigma augmented 53%nat 53%nat = 1
  /\ sigma augmented 0%nat 53%nat = 0
  /\ block (sigma augmented) 0 0 State_DOF State_DOF 36%nat 36%nat = 2.
Proof. intro augmented. repeat split. Qed.

(** C8 on the bench with one correspondence. *)
Lemma visual_update_structure_witness :
  let posterior :=
    feature_update (C := bench) bench_camera
      (mkAffine3d m3_Identity Vector3d_Zero)
      (augmented_filter bench_filter bench_pose bench_marker_cov)
      (bench_corner, Vector3d_Zero) in
  (N.of_nat (List.length [bench_corner]) < UINT_MODULUS)%N
  /\ List.length [bench_corner] = List.length [Vector3d_Zero]
  /\ integrateMeasurement_VisualFeature (C := bench) bench_filter
       [bench_corner] [Vector3d_Zero] bench_pose bench_marker_cov
       bench_camera (mkAffine3d m3_Identity Vector3d_Zero)
     = Ok (set_ukf bench_filter
             (mkUkf (filter_state (mu posterior))
                    (block (sigma posterior) 0 0 State_DOF State_DOF))).
Proof.
  intro posterior.
  split; [reflexivity|]. split; [reflexivity|].
  apply (visual_update_structure (C := bench) bench_filter [bench_corner]
           [Vector3d_Zero] bench_pose bench_marker_cov bench_camera
           (mkAffine3d m3_Identity Vector3d_Zero) eq_refl eq_refl).
Defined.

(** ** The further properties on the bench *)

(** X1 at the threshold itself: 5.991 is accepted, and so is 1 by both
    gates. *)
Lemma gates_downward_closed_witness :
  1 <= 5.991 /\ d2p95 5.991 = true
  /\ d2p95 1 = true /\ d2p99 1 = true /\ d2p99 5.991 = true.
Proof.
  assert (Hle : 1 <= 5.991) by (apply Qle_bool_iff; reflexivity).
  split; [exact Hle|]. split; [reflexivity|].
  exact (gates_downward_closed 1 5.991 Hle eq_refl).
Defined.

(** X4 on the bench: ten metres deep against five. *)
Lemma pressure_increases_with_depth_witness :
  z3 (position bench_state) <= z3 (position bench_state_shallow)
  /\ measurementPressureSensor (C := bench) bench_state_shallow
       Vector3d_Zero 101325
     <= measurementPressureSensor (C := bench) bench_state
          Vector3d_Zero 101325.
Proof.
  assert (Hz : z3 (position bench_state) <= z3 (position bench_state_shallow))
    by (apply Qle_bool_iff; reflexivity).
  split; [exact Hz|].
  apply (pressure_increases_with_depth (C := bench) bench_state
           bench_state_shallow Vector3d_Zero 101325 eq_refl eq_refl eq_refl).
  - apply Qle_bool_iff. reflexivity.
  - apply Qle_bool_iff. reflexivity.
  - exact Hz.
Defined.

(** X5 on the bench filter, whose time constants are all one second. *)
Lemma zero_time_step_witness :
  Forall (fun tau => ~ tau == 0)
         (time_constants (filter_parameter bench_filter))
  /\ bias_gyro (process_function (C := bench) bench_filter 0 bench_state)
     =v= bias_gyro bench_state
  /\ process_noise_of (C := bench) bench_filter 0 3%nat 3%nat == 0.
Proof.
  assert (Htaus : Forall (fun tau => ~ tau == 0)
                         (time_constants (filter_parameter bench_filter))).
  { repeat constructor; intro H; discriminate H. }
  split; [exact Htaus|].
  destruct (zero_time_step (C := bench) bench_filter bench_state Htaus)
    as (_ & (Hgyro & _) & _ & Hnoise).
  split; [exact Hgyro | exact (Hnoise 3%nat 3%nat)].
Defined.

(** X6 on the bench state at rest, for a step of three seconds. *)
Lemma relaxation_equilibrium_witness :
  Forall (fun tau => ~ tau == 0) (time_constants bench_parameter_zero_offsets)
  /\
  let new_state :=
    processModel (C := bench) bench_state_at_rest (mkVector3d 1 0 0)
      bench_location (inertia bench_state_at_rest)
      (lin_damping bench_state_at_rest) (quad_damping bench_state_at_rest)
      (water_density bench_state_at_rest) bench_parameter_zero_offsets 3 in
  bias_gyro new_state =v= bias_gyro bench_state_at_rest
  /\ bias_acc new_state =v= bias_acc bench_state_at_rest
  /\ inertia new_state =v= inertia bench_state_at_rest
  /\ lin_damping new_state =v= lin_damping bench_state_at_rest
  /\ quad_damping new_state =v= quad_damping bench_state_at_rest
  /\ water_density new_state == water_density bench_state_at_rest
  /\ water_velocity new_state =v= water_velocity bench_state_at_rest
  /\ water_velocity_below new_state
     =v= water_velocity_below bench_state_at_rest
  /\ bias_adcp new_state =v= bias_adcp bench_state_at_rest.
Proof.
  assert (Htaus : Forall (fun tau => ~ tau == 0)
                         (time_constants bench_parameter_zero_offsets)).
  { repeat constructor; intro H; discriminate H. }
  split; [exact Htaus|].
  apply (relaxation_equilibrium (C := bench) bench_state_at_rest
           (mkVector3d 1 0 0) bench_location (inertia bench_state_at_rest)
           (lin_damping bench_state_at_rest)
           (quad_damping bench_state_at_rest)
           (water_density bench_state_at_rest)
           bench_parameter_zero_offsets 3 Htaus);
    try apply veq_refl; try reflexivity; evaluate_coordinates.
Defined.

(** X7 on the bench: half a second against time constants of one second. *)
Lemma relaxation_contracts_witness :
  0 <= 0.5
  /\ Forall (fun tau => 0 < tau /\ 0.5 <= tau) (time_constants bench_parameter)
  /\ no_farther
       (bias_gyro
          (processModel (C := bench) bench_state Vector3d_Zero bench_location
             (inertia bench_state) (lin_damping bench_state)
             (quad_damping bench_state) (water_density bench_state)
             bench_parameter 0.5))
       (bias_gyro bench_state) (gyro_bias_offset bench_parameter).
Proof.
  assert (Hdt : 0 <= 0.5) by (apply Qle_bool_iff; reflexivity).
  assert (Htaus : Forall (fun tau => 0 < tau /\ 0.5 <= tau)
                         (time_constants bench_parameter)).
  { repeat constructor; apply Qle_bool_iff; reflexivity. }
  split; [exact Hdt|]. split; [exact Htaus|].
  exact (proj1 (relaxation_contracts (C := bench) bench_state Vector3d_Zero
                  bench_location (inertia bench_state)
                  (lin_damping bench_state) (quad_damping bench_state)
                  (water_density bench_state) bench_parameter 0.5 Hdt Htaus)).
Defined.

(** X9 on the bench filter, for a step of two seconds. *)
Lemma water_velocity_variance_not_lowered_witness :
  0 <= water_velocity_scale (filter_parameter bench_filter)
  /\ 2 * 2 * process_noise_cov bench_filter 46%nat 46%nat
     <= process_noise_of (C := bench) bench_filter 2 46%nat 46%nat.
Proof.
  assert (Hs : 0 <= water_velocity_scale (filter_parameter bench_filter))
    by (apply Qle_bool_iff; reflexivity).
  assert (Hdt : 0 <= 2) by (apply Qle_bool_iff; reflexivity).
  split; [exact Hs|].
  exact (proj1 (water_velocity_variance_not_lowered (C := bench) bench_filter
                  2 0 Hs Hdt (Nat.lt_0_succ 1))).
Defined.

(** X10 on the bench: a prediction, a position fix and two gyro samples. *)
Lemma run_frame_witness :
  let ops :=
    [Predict 1; Integrate (RotationRate bench_gyro);
     Integrate (XY_Position bench_fix);
     Integrate (RotationRate
                  (mkMeasurement (mkVector3d 0 0 2) Matrix_Identity))] in
  exists f',
    run (C := bench) bench_filter ops = Ok f'
    /\ f' = set_rotation_rate (set_ukf bench_filter (ukf f'))
                              (mkVector3d 0 0 2).
Proof.
  intro ops. eexists. split; [reflexivity|].
  exact (run_frame (C := bench) ops bench_filter _ eq_refl).
Defined.

(** X11 on the bench, for a visual batch of one corner against two
    feature positions: the read at index 1 of the corners is out of
    bounds. *)
Lemma integrateMeasurement_out_of_bounds_exactly_witness :
  let m :=
    VisualFeatureMeasurement [bench_corner] [Vector3d_Zero; mkVector3d 1 0 0]
      bench_pose bench_marker_cov bench_camera
      (mkAffine3d m3_Identity Vector3d_Zero) in
  counter_fits m
  /\ ~ accesses_in_bounds m
  /\ integrateMeasurement (C := bench) bench_filter m
     = Stop (OutOfBounds 1 1).
Proof.
  intro m.
  assert (Hfit : counter_fits m) by (split; reflexivity).
  assert (Hlen : List.length [bench_corner]
                 <> List.length [Vector3d_Zero; mkVector3d 1 0 0])
    by discriminate.
  split; [exact Hfit|]. split; [exact Hlen|].
  destruct (integrateMeasurement_out_of_bounds_exactly (C := bench)
              bench_filter m Hfit) as (_ & _ & Hwhere).
  exact (Hwhere Hlen).
Defined.

(** X13 on the bench filter and marker covariance, both constant. *)
Lemma augmented_covariance_symmetric_witness :
  symmetric (sigma (ukf bench_filter)) /\ symmetric bench_marker_cov
  /\ symmetric (sigma (augmented_filter (C := bench) bench_filter bench_pose
                         bench_marker_cov)).
Proof.
  assert (Hs : symmetric (sigma (ukf bench_filter)))
    by (intros i j; reflexivity).
  assert (Hm : symmetric bench_marker_cov) by (intros i j; reflexivity).
  split; [exact Hs|]. split; [exact Hm|].
  exact (augmented_covariance_symmetric (C := bench) bench_filter bench_pose
           bench_marker_cov Hs Hm).
Defined.

(** X14 on the bench corner. *)
Lemma ray_covariance_symmetric_witness :
  ~ fx bench_camera == 0 /\ ~ fy bench_camera == 0
  /\ m_cov bench_corner 0%nat 1%nat == m_cov bench_corner 1%nat 0%nat
  /\ symmetric (feature_projection_cov bench_camera bench_corner).
Proof.
  assert (Hfx : ~ fx bench_camera == 0) by (intro H; discriminate H).
  assert (Hfy : ~ fy bench_camera == 0) by (intro H; discriminate H).
  assert (Hoff : m_cov bench_corner 0%nat 1%nat
                 == m_cov bench_corner 1%nat 0%nat) by reflexivity.
  split; [exact Hfx|]. split; [exact Hfy|]. split; [exact Hoff|].
  exact (ray_covariance_symmetric bench_camera bench_corner Hfx Hfy Hoff).
Defined.


(** X17 on the bench: after a prediction, the process function still keeps
    the parameters of the state the filter was built from. *)
Lemma initial_parameters_stationary_witness :
  exists f,
    run (C := bench) bench_filter [Predict 1] = Ok f
    /\ inertia (process_function f 2 bench_state) =v= inertia bench_state
    /\ water_density (process_function f 2 bench_state)
       == water_density bench_state.
Proof.
  eexists. split; [reflexivity|].
  assert (Htau : ~ 1 == 0) by (intro H; discriminate H).
  destruct (initial_parameters_stationary (C := bench) bench_state bench_cov
              bench_location bench_model bench_parameter Matrix_Identity
              [Predict 1] _ 2 bench_state eq_refl Htau Htau Htau Htau
              (veq_refl _) (veq_refl _) (veq_refl _) (Qeq_refl _))
    as (Hi & _ & _ & Hd).
  split; [exact Hi | exact Hd].
Defined.
